(** * LandBOSSE: the SAM entry point [run_landbosse] and the LCOE
      post-processing script, embedded and checked against their specification.

    Sources embedded here:
    - [src/landbosse/landbosse_api/run.py]  ([run_landbosse], [daterange])
    - [src/post_processing_scripts/lcoe_module_multiplier.py]
      ([preprocess_bos_module_cost], [main])

    Python values are modelled by [pyval]; binary64 numbers are the kernel's
    primitive floats, so comparisons and products are those Python performs.
    Dictionaries whose iteration order is observable (the caller's input map,
    the error map) are insertion-ordered association lists; the master input
    map, the orchestrator's output map and the result record are [gmap]s. *)

From Stdlib Require Import ZArith String List PrimFloat.
From stdpp Require Import gmap strings.
Import ListNotations.

Set Warnings "-inexact-float,-abstract-large-number".

Local Open Scope Z_scope.
Local Open Scope string_scope.

(* ================================================================== *)
(** * Python values, exceptions, outcomes                               *)
(* ================================================================== *)

Module Py.

(** The exceptions [run.py] declares (its [Error] hierarchy), the built-in
    ones its own statements can raise, and two open families for whatever a
    collaborator raises: [OtherException] is a subclass of [Exception],
    [BaseOnly] is not ([KeyboardInterrupt], [SystemExit]). *)
Inductive exn : Type :=
| NegativeInputError
| TurbineNumberError
| LargeTurbineSizeError
| SmallTurbineSizeError
| KeyError (key : string)
| TypeError
| ValueError (msg : string)
| NameError (name : string)
| AttributeError (name : string)
| FileNotFoundError (path : string)
| OtherException (name : string)
| BaseOnly (name : string).

(** [isinstance(e, Exception)]: what [except Exception] catches. *)
Definition is_Exception (e : exn) : bool :=
  match e with
  | BaseOnly _ => false
  | _ => true
  end.

#[warnings="-register-all"]
Inductive pyval : Type :=
| PNone
| PBool (b : bool)
| PInt (z : Z)
| PFloat (f : float)
| PStr (s : string)
| PList (l : list pyval)
| PTuple (l : list pyval)
| PDict (d : list (string * pyval))
| PExc (e : exn)
| PObj (ref : N).          (* a DataFrame or other object owned by a collaborator *)

Inductive result (A : Type) : Type :=
| Ok (a : A)
| Raise (e : exn).
Arguments Ok {A} a.
Arguments Raise {A} e.

Definition is_Ok {A} (r : result A) : bool :=
  match r with Ok _ => true | Raise _ => false end.

(** ** Insertion-ordered dictionaries with string keys *)

Definition odict := list (string * pyval).

Fixpoint dict_get (d : odict) (k : string) : option pyval :=
  match d with
  | [] => None
  | (k', v) :: rest => if String.eqb k' k then Some v else dict_get rest k
  end.

(** [d[k] = v]: an existing key keeps its position, a new key goes last. *)
Fixpoint dict_set (d : odict) (k : string) (v : pyval) : odict :=
  match d with
  | [] => [(k, v)]
  | (k', v') :: rest =>
      if String.eqb k' k then (k', v) :: rest else (k', v') :: dict_set rest k v
  end.

Definition dict_keys (d : odict) : list string := map fst d.

Definition dict_mem (d : odict) (k : string) : bool :=
  match dict_get d k with Some _ => true | None => false end.

(** ** Comparisons against an integer literal

    [v > n] and [v < n] for the integer literals of [run.py] (0, 1, 8, 10).
    Python compares an [int] with a [float] exactly; for these literals that
    is the binary64 comparison with the literal's float. [bool] is a subclass
    of [int]. Everything else raises [TypeError]. *)

Definition float_of_lit (n : Z) : float :=
  match n with
  | Z0 => PrimFloat.zero
  | Zpos p => Pos.iter_op PrimFloat.add p PrimFloat.one
  | Zneg p => PrimFloat.opp (Pos.iter_op PrimFloat.add p PrimFloat.one)
  end.

Definition py_gt (v : pyval) (n : Z) : result bool :=
  match v with
  | PInt z => Ok (Z.ltb n z)
  | PBool b => Ok (Z.ltb n (Z.b2z b))
  | PFloat f => Ok (PrimFloat.ltb (float_of_lit n) f)
  | _ => Raise TypeError
  end.

Definition py_lt (v : pyval) (n : Z) : result bool :=
  match v with
  | PInt z => Ok (Z.ltb z n)
  | PBool b => Ok (Z.ltb (Z.b2z b) n)
  | PFloat f => Ok (PrimFloat.ltb f (float_of_lit n))
  | _ => Raise TypeError
  end.

(** [(type(value) == int or type(value) == float) and value < 0]:
    [type(True) == int] is false, so booleans never count. *)
Definition is_negative_number (v : pyval) : bool :=
  match v with
  | PInt z => Z.ltb z 0
  | PFloat f => PrimFloat.ltb f PrimFloat.zero
  | _ => false
  end.

End Py.
Export Py.

(* ================================================================== *)
(** * Dates: [datetime], [timedelta(hours=1)], [strftime], [daterange]  *)
(* ================================================================== *)

Module Dates.

#[local] Open Scope Z_scope.

(** A [datetime] is kept as the number of minutes since 1970-01-01 00:00
    of the proleptic Gregorian calendar, which is what [+ timedelta] and
    [<] act on. *)
Definition days_from_civil (y m d : Z) : Z :=
  let y' := if m <=? 2 then y - 1 else y in
  let era := y' / 400 in
  let yoe := y' - era * 400 in
  let mp := if 2 <? m then m - 3 else m + 9 in
  let doy := (153 * mp + 2) / 5 + d - 1 in
  let doe := yoe * 365 + yoe / 4 - yoe / 100 + doy in
  era * 146097 + doe - 719468.

Definition civil_from_days (days : Z) : Z * Z * Z :=
  let z := days + 719468 in
  let era := z / 146097 in
  let doe := z - era * 146097 in
  let yoe := (doe - doe / 1460 + doe / 36524 - doe / 146096) / 365 in
  let doy := doe - (365 * yoe + yoe / 4 - yoe / 100) in
  let mp := (5 * doy + 2) / 153 in
  let d := doy - (153 * mp + 2) / 5 + 1 in
  let m := if mp <? 10 then mp + 3 else mp - 9 in
  let y := yoe + era * 400 in
  (if m <=? 2 then y + 1 else y, m, d).

Definition datetime (y m d hh mm : Z) : Z :=
  (days_from_civil y m d * 24 + hh) * 60 + mm.

Definition timedelta_hours (h : Z) : Z := h * 60.

Definition digit (n : Z) : string :=
  String (Ascii.ascii_of_N (48 + Z.to_N (n mod 10))) EmptyString.

Definition pad2 (n : Z) : string := (digit (n / 10) ++ digit n)%string.
Definition pad4 (n : Z) : string := (pad2 (n / 100) ++ pad2 n)%string.

(** [t.strftime("%Y-%m-%d %H:%M")] *)
Definition strftime (t : Z) : string :=
  let '(y, m, d) := civil_from_days (t / 1440) in
  let hh := (t mod 1440) / 60 in
  let mm := t mod 60 in
  (pad4 y ++ "-" ++ pad2 m ++ "-" ++ pad2 d ++ " " ++ pad2 hh ++ ":" ++ pad2 mm)%string.

(** [daterange]: the generator yields [start_date] while it is below
    [end_date], stepping by one hour. Each step closes at least one minute
    of the gap, so [end_date - start_date] steps always suffice. *)
Fixpoint daterange_steps (fuel : nat) (start_date end_date : Z) : list Z :=
  match fuel with
  | O => []
  | S fuel' =>
      if start_date <? end_date
      then start_date :: daterange_steps fuel' (start_date + timedelta_hours 1) end_date
      else []
  end.

Definition daterange (start_date end_date : Z) : list Z :=
  daterange_steps (Z.to_nat (end_date - start_date)) start_date end_date.

(** Lines 233-237 of [run.py]. *)
Definition default_date_time : list string :=
  let start_date := datetime 2011 12 31 0 0 in
  let end_date := datetime 2012 12 30 0 0 in
  map strftime (daterange start_date end_date).

End Dates.

(* ================================================================== *)
(** * A state-and-exception monad for the body of [run_landbosse]       *)
(* ================================================================== *)

(** A statement maps the state to an outcome and a state: what was mutated
    before an exception is raised stays mutated, as in Python. *)
Definition M (St A : Type) : Type := St -> result A * St.

Definition ret {St A} (a : A) : M St A := fun st => (Ok a, st).

Definition raise {St A} (e : exn) : M St A := fun st => (Raise e, st).

Definition bind {St A B} (m : M St A) (k : A -> M St B) : M St B :=
  fun st =>
    match m st with
    | (Ok a, st') => k a st'
    | (Raise e, st') => (Raise e, st')
    end.

(** [try: body / except <a class selected by catches> as error: handler] *)
Definition try_except {St A} (body : M St A) (catches : exn -> bool)
    (handler : exn -> M St A) : M St A :=
  fun st =>
    match body st with
    | (Ok a, st') => (Ok a, st')
    | (Raise e, st') => if catches e then handler e st' else (Raise e, st')
    end.

Definition lift {St A} (r : result A) : M St A := fun st => (r, st).

Notation "'let!' x ':=' m 'in' k" := (bind m (fun x => k))
  (at level 10, x name, m at level 100, k at level 200, only parsing).
Notation "'run!' m 'in' k" := (bind m (fun _ => k))
  (at level 10, m at level 100, k at level 200, only parsing).

(* ================================================================== *)
(** * [run_landbosse]                                                   *)
(* ================================================================== *)

Module Run.

(** The functions of [landbosse.landbosse_api.turbine_scaling] and the
    DataFrame method the geometry stage calls; none is defined in [run.py]. *)
Inductive scaling_fn : Type :=
| nacelle_mass | edit_nacelle_info
| hub_mass | edit_hub_info
| blade_mass_ton | edit_blade_info
| tower_mass | tower_specs | edit_tower_sections
| reset_index.

(** Calls that leave [run.py], in the order they are made. *)
Inductive event : Type :=
| CallApplyLaborMultiplier (labor_cost_multiplier : pyval)
| CallReadWeatherData (file_path : pyval)
| CallReadWeatherWindow
| CallScaling (f : scaling_fn) (args : list pyval)
| CallExecuteLandbosse (project_id_with_serial : string).

(** A weather frame as [read_weather_data] returns it: [usecols=[0,1,2,3,4]]
    fixes five columns, labelled 0..4. *)
Definition weather_row : Type := pyval * pyval * pyval * pyval * pyval.

(** A row of the frame handed to [read_weather_window]:
    Date UTC, Temp C, Pressure atm, Direction deg, Speed m per s. *)
Definition weather_window_row : Type := string * pyval * pyval * pyval * pyval.

Section WithCollaborators.

(** The objects collaborators own (cached workbooks, DataFrames); [PObj]
    values point into it. *)
Context {Heap : Type}.

(** What [run_landbosse] imports and calls. A collaborator may mutate the
    heap and may raise. [execute_landbosse] is [Manager(input_dict,
    output_dict).execute_landbosse(id)]: the manager holds both maps by
    reference, so it returns them as it left them. *)
Record collaborators : Type := {
  load_master_input_dictionaries : Heap -> result (list (gmap string pyval)) * Heap;
  apply_labor_multiplier_to_project_data_dict : pyval -> Heap -> result unit * Heap;
  read_csv : pyval -> Heap -> result (list weather_row) * Heap;
  read_weather_window : list weather_window_row -> Heap -> result pyval * Heap;
  scaling : scaling_fn -> list pyval -> Heap -> result pyval * Heap;
  execute_landbosse :
    gmap string pyval -> gmap string pyval -> string -> Heap ->
    result (gmap string pyval * gmap string pyval) * Heap;
  builtin_str : pyval -> string;
  object_truth : N -> result bool;
  input_output_path : string
}.

Variable ext : collaborators.

Record state : Type := {
  master_input_dict : gmap string pyval;
  output_dict : gmap string pyval;
  heap : Heap;
  calls : list event
}.

Definition with_master (f : gmap string pyval -> gmap string pyval) (st : state) : state :=
  {| master_input_dict := f (master_input_dict st);
     output_dict := output_dict st; heap := heap st; calls := calls st |}.

Definition log (ev : event) (st : state) : state :=
  {| master_input_dict := master_input_dict st;
     output_dict := output_dict st; heap := heap st; calls := calls st ++ [ev] |}.

Definition with_heap (h : Heap) (st : state) : state :=
  {| master_input_dict := master_input_dict st;
     output_dict := output_dict st; heap := h; calls := calls st |}.

(** [master_input_dict[k]] *)
Definition getitem (k : string) : M state pyval :=
  fun st =>
    match master_input_dict st !! k with
    | Some v => (Ok v, st)
    | None => (Raise (KeyError k), st)
    end.

(** [master_input_dict[k] = v] *)
Definition setitem (k : string) (v : pyval) : M state unit :=
  fun st => (Ok tt, with_master (fun m => <[k := v]> m) st).

(** [sam_input_dict[k]] *)
Definition sam_getitem (sam_input_dict : odict) (k : string) : M state pyval :=
  match dict_get sam_input_dict k with
  | Some v => ret v
  | None => raise (KeyError k)
  end.

(** [master_input_dict['error'][kind] = value]. The slot holds the dict of
    line 173 unless the caller's map overrode the key ['error']; item
    assignment on anything that is not a dict raises [TypeError]. *)
Definition record_error (kind : string) (value : pyval) : M state unit :=
  let! slot := getitem "error" in
  match slot with
  | PDict d => setitem "error" (PDict (dict_set d kind value))
  | _ => raise TypeError
  end.

(** Running a collaborator: the call is logged, the heap is what it leaves. *)
Definition call {A} (ev : event) (f : Heap -> result A * Heap) : M state A :=
  fun st =>
    let st1 := log ev st in
    let '(r, h) := f (heap st1) in
    (r, with_heap h st1).

(** ** Lines 181-229: negative-value scan, overrides, turbine checks *)

Definition negative_input_message (key : string) : string :=
  "User entered a negative value for " ++ key ++ ". This is an invalid entry".

Definition turbine_number_message : string :=
  "User selected less than 10 turbines. LandBOSSE currently provides BOS estimates for 10 or greater number of turbines in a utility scale project.".

Definition large_turbine_message : string :=
  "User selected turbine of rating greater than 8 MW. LandBOSSE provides reasonable results for turbines in range of 1-8 MW rating for now.".

Definition small_turbine_message : string :=
  "User selected turbine of rating lesser than 1 MW. LandBOSSE provides reasonable results for turbines in range of 1-8 MW rating for now.".

(** The [for] loop of lines 182-184 sits inside the [try]: the first
    negative number raises [NegativeInputError] and ends the loop with
    [key] bound to that item ([Some key]); [None] when the loop runs out. *)
Fixpoint scan_for_negative (items : list (string * pyval)) : option string :=
  match items with
  | [] => None
  | (key, value) :: rest =>
      if is_negative_number value then Some key else scan_for_negative rest
  end.

Definition negative_input_check (sam_input_dict : odict) : M state unit :=
  match scan_for_negative sam_input_dict with
  | Some key => record_error "NegativeInputError" (PStr (negative_input_message key))
  | None => ret tt
  end.

(** Lines 192-196. *)
Fixpoint override_loop (sam_input_dict : odict) (keys : list string) : M state unit :=
  match keys with
  | [] => ret tt
  | key :: rest =>
      run! (if String.eqb key "weather_file_path" then ret tt
            else let! v := sam_getitem sam_input_dict key in setitem key v) in
      override_loop sam_input_dict rest
  end.

(** Lines 200-201. *)
Definition update_labor_cost : M state unit :=
  let! labor_cost_multiplier := getitem "labor_cost_multiplier" in
  call (CallApplyLaborMultiplier labor_cost_multiplier)
       (apply_labor_multiplier_to_project_data_dict ext labor_cost_multiplier).

Definition is_TurbineNumberError (e : exn) : bool :=
  match e with TurbineNumberError => true | _ => false end.
Definition is_LargeTurbineSizeError (e : exn) : bool :=
  match e with LargeTurbineSizeError => true | _ => false end.
Definition is_SmallTurbineSizeError (e : exn) : bool :=
  match e with SmallTurbineSizeError => true | _ => false end.

(** Lines 204-212. *)
Definition check_num_turbines (sam_input_dict : odict) : M state unit :=
  try_except
    (let! n := sam_getitem sam_input_dict "num_turbines" in
     let! above := lift (py_gt n 10) in
     if (above : bool)
     then let! n' := sam_getitem sam_input_dict "num_turbines" in
          setitem "num_turbines" n'
     else raise TurbineNumberError)
    is_TurbineNumberError
    (fun _ => record_error "TurbineNumberError" (PStr turbine_number_message)).

(** Lines 215-229: one [try] with two [except] clauses. *)
Definition check_turbine_rating (sam_input_dict : odict) : M state unit :=
  try_except
    (try_except
       (let! r := sam_getitem sam_input_dict "turbine_rating_MW" in
        let! too_large := lift (py_gt r 8) in
        if (too_large : bool) then raise LargeTurbineSizeError
        else
          let! r' := sam_getitem sam_input_dict "turbine_rating_MW" in
          let! too_small := lift (py_lt r' 1) in
          if (too_small : bool) then raise SmallTurbineSizeError
          else let! r'' := sam_getitem sam_input_dict "turbine_rating_MW" in
               setitem "turbine_rating_MW" r'')
       is_LargeTurbineSizeError
       (fun _ => record_error "LargeTurbineSizeError" (PStr large_turbine_message)))
    is_SmallTurbineSizeError
    (fun _ => record_error "SmallTurbineSizeError" (PStr small_turbine_message)).

Definition override_and_validate (sam_input_dict : odict) : M state unit :=
  run! negative_input_check sam_input_dict in
  run! override_loop sam_input_dict (dict_keys sam_input_dict) in
  run! update_labor_cost in
  run! check_num_turbines sam_input_dict in
  check_turbine_rating sam_input_dict.

(** ** Lines 240-262: the weather window *)

(** [read_weather_data(file_path)]: one [pd.read_csv] call. *)
Definition read_weather_data (file_path : pyval) : M state (list weather_row) :=
  call (CallReadWeatherData file_path) (read_csv ext file_path).

(** [df.insert(loc=0, column='time', value=default_date_time)]: pandas
    raises [ValueError] unless the list is as long as the frame. *)
Definition insert_time (df : list weather_row) (value : list string)
  : result (list (string * weather_row)) :=
  if Nat.eqb (length value) (length df)
  then Ok (combine value df)
  else Raise (ValueError "Length of values does not match length of index").

(** Lines 249-259: the six columns are [time, 0, 1, 2, 3, 4]; the first
    five are renamed by position and kept, the column labelled 4 is dropped. *)
Definition rename_and_select (row : string * weather_row) : weather_window_row :=
  let '(time, (c0, c1, c2, c3, _)) := row in (time, c0, c1, c2, c3).

Definition weather_try_body (sam_input_dict : odict) : M state unit :=
  let! weather_window_input_df :=
    (if dict_mem sam_input_dict "weather_file_path"
     then let! p := sam_getitem sam_input_dict "weather_file_path" in
          read_weather_data p
     else read_weather_data
            (PStr (input_output_path ext ++ "/project_data/az_rolling.srw"))) in
  let! with_time := lift (insert_time weather_window_input_df Dates.default_date_time) in
  let weather_data := map rename_and_select with_time in
  let! window := call CallReadWeatherWindow (read_weather_window ext weather_data) in
  setitem "weather_window" window.

Definition weather_stage (sam_input_dict : odict) : M state unit :=
  try_except (weather_try_body sam_input_dict) is_Exception
    (fun error => record_error "Weather_Data" (PExc error)).

(** ** Lines 272-302: component table rescaling *)

Definition call_scaling (f : scaling_fn) (args : list pyval) : M state pyval :=
  call (CallScaling f args) (scaling ext f args).

(** [master_input_dict['component_data'] =
       master_input_dict['component_data'].reset_index(drop=True)] *)
Definition reset_component_index : M state unit :=
  let! cd := getitem "component_data" in
  let! cd' := call_scaling reset_index [cd] in
  setitem "component_data" cd'.

(** [a, b = value] *)
Definition unpack2 (value : pyval) : result (pyval * pyval) :=
  match value with
  | PTuple [a; b] | PList [a; b] => Ok (a, b)
  | PDict [(a, _); (b, _)] => Ok (PStr a, PStr b)
  | PTuple _ | PList _ | PDict _ => Raise (ValueError "wrong number of values to unpack")
  | PStr s =>
      match s with
      | String a (String b EmptyString) =>
          Ok (PStr (String a EmptyString), PStr (String b EmptyString))
      | _ => Raise (ValueError "wrong number of values to unpack")
      end
  | _ => Raise TypeError
  end.

Definition geometry_stage : M state unit :=
  (* nacelle *)
  let! rating := getitem "turbine_rating_MW" in
  let! nacelle_mass_ton := call_scaling nacelle_mass [rating] in
  let! cd := getitem "component_data" in
  let! hub_height := getitem "hub_height_meters" in
  let! cd' := call_scaling edit_nacelle_info [cd; nacelle_mass_ton; hub_height] in
  run! setitem "component_data" cd' in
  run! reset_component_index in
  (* hub *)
  let! rating := getitem "turbine_rating_MW" in
  let! hub_mass_ton := call_scaling hub_mass [rating] in
  let! cd := getitem "component_data" in
  let! hub_height := getitem "hub_height_meters" in
  let! cd' := call_scaling edit_hub_info [cd; hub_mass_ton; hub_height] in
  run! setitem "component_data" cd' in
  run! reset_component_index in
  (* blades *)
  let! rotor := getitem "rotor_diameter_m" in
  let! blade_mass := call_scaling blade_mass_ton [rotor] in
  let! cd := getitem "component_data" in
  let! hub_height := getitem "hub_height_meters" in
  let! rotor := getitem "rotor_diameter_m" in
  let! cd' := call_scaling edit_blade_info [cd; blade_mass; hub_height; rotor] in
  run! setitem "component_data" cd' in
  run! reset_component_index in
  (* tower *)
  let! rating := getitem "turbine_rating_MW" in
  let! hub_height := getitem "hub_height_meters" in
  let! tower_mass_tonne := call_scaling tower_mass [rating; hub_height] in
  let! hub_height := getitem "hub_height_meters" in
  let! specs := call_scaling tower_specs [hub_height; tower_mass_tonne] in
  let! unpacked := lift (unpack2 specs) in
  let '(num_tower_sections, tower_section_height_m) := unpacked in
  let! cd := getitem "component_data" in
  let! cd' := call_scaling edit_tower_sections
                [cd; num_tower_sections; tower_mass_tonne; tower_section_height_m] in
  run! setitem "component_data" cd' in
  reset_component_index.

(** ** Lines 309-310: the module execution orchestrator *)

Definition project_id_with_serial : string := "SAM_Run".

Definition run_manager : M state unit :=
  fun st =>
    let st1 := log (CallExecuteLandbosse project_id_with_serial) st in
    match execute_landbosse ext (master_input_dict st1) (output_dict st1)
            project_id_with_serial (heap st1) with
    | (Ok (m, o), h) =>
        (Ok tt, {| master_input_dict := m; output_dict := o; heap := h; calls := calls st1 |})
    | (Raise e, h) => (Raise e, with_heap h st1)
    end.

(** ** Lines 314-377: the result record *)

(** [bool(v)], as the [if] of line 316 takes it. *)
Definition py_truth (v : pyval) : result bool :=
  match v with
  | PNone => Ok false
  | PBool b => Ok b
  | PInt z => Ok (negb (Z.eqb z 0))
  | PFloat f => Ok (negb (PrimFloat.eqb f PrimFloat.zero))
  | PStr s => Ok (negb (String.eqb s ""))
  | PList l | PTuple l => Ok (match l with [] => false | _ => true end)
  | PDict d => Ok (match d with [] => false | _ => true end)
  | PExc _ => Ok true
  | PObj ref => object_truth ext ref
  end.

(** [str(value)] *)
Definition py_str (v : pyval) : string :=
  match v with
  | PStr s => s
  | _ => builtin_str ext v
  end.

(** Lines 317-319: one message per entry, in the error map's order. *)
Definition error_messages (errors : odict) : list pyval :=
  map (fun '(key, value) => PStr ("Error in " ++ key ++ ": " ++ py_str value)) errors.

(** [results[result_key] = output_dict[output_key]], for each pair in turn. *)
Fixpoint copy_fields (output : gmap string pyval) (fields : list (string * string))
    (results : gmap string pyval) : result (gmap string pyval) :=
  match fields with
  | [] => Ok results
  | (result_key, output_key) :: rest =>
      match output !! output_key with
      | Some v => copy_fields output rest (<[result_key := v]> results)
      | None => Raise (KeyError output_key)
      end
  end.

(** Lines 321-335. *)
Definition fields_up_to_development : list (string * string) :=
  [ ("total_bos_cost", "project_value_usd");
    ("total_management_cost", "total_management_cost");
    ("insurance_usd", "insurance_usd");
    ("construction_permitting_usd", "construction_permitting_usd");
    ("project_management_usd", "project_management_usd");
    ("bonding_usd", "bonding_usd");
    ("markup_contingency_usd", "markup_contingency_usd");
    ("engineering_usd", "engineering_usd");
    ("site_facility_usd", "site_facility_usd");
    ("total_management_cost", "total_management_cost");
    ("total_development_cost", "summed_development_cost") ].

(** Lines 343-375. *)
Definition fields_after_development : list (string * string) :=
  [ ("total_sitepreparation_cost", "summed_sitepreparation_cost");
    ("sitepreparation_equipment_rental_usd", "sitepreparation_equipment_rental_usd");
    ("sitepreparation_labor_usd", "sitepreparation_labor_usd");
    ("sitepreparation_material_usd", "sitepreparation_material_usd");
    ("sitepreparation_mobilization_usd", "sitepreparation_mobilization_usd");
    ("total_foundation_cost", "summed_foundation_cost");
    ("foundation_equipment_rental_usd", "foundation_equipment_rental_usd");
    ("foundation_labor_usd", "foundation_labor_usd");
    ("foundation_material_usd", "foundation_material_usd");
    ("foundation_mobilization_usd", "foundation_mobilization_usd");
    ("total_erection_cost", "total_cost_summed_erection");
    ("erection_equipment_rental_usd", "erection_equipment_rental_usd");
    ("erection_labor_usd", "erection_labor_usd");
    ("erection_material_usd", "erection_material_usd");
    ("erection_other_usd", "erection_other_usd");
    ("erection_mobilization_usd", "erection_mobilization_usd");
    ("erection_fuel_usd", "erection_fuel_usd");
    ("total_gridconnection_cost", "trans_dist_usd");
    ("total_collection_cost", "summed_collection_cost");
    ("collection_equipment_rental_usd", "collection_equipment_rental_usd");
    ("collection_labor_usd", "collection_labor_usd");
    ("collection_material_usd", "collection_material_usd");
    ("collection_mobilization_usd", "collection_mobilization_usd");
    ("total_substation_cost", "summed_substation_cost") ].

(** Lines 336-340. *)
Definition development_fields (master output results : gmap string pyval)
  : result (gmap string pyval) :=
  match
    (if decide (is_Some (output !! "Development labor cost USD"))
     then match master !! "development_labor_cost_usd" with
          | Some v => Ok (<["development_equipment_rental_usd" := v]> results)
          | None => Raise (KeyError "development_labor_cost_usd")
          end
     else Ok results)
  with
  | Ok r =>
      Ok (<["development_mobilization_usd" := PInt 0]>
            (<["development_material_usd" := PInt 0]>
               (<["development_labor_usd" := PInt 0]> r)))
  | Raise e => Raise e
  end.

(** The [else] branch of line 320. *)
Definition cost_record (master output results : gmap string pyval)
  : result (gmap string pyval) :=
  match copy_fields output fields_up_to_development results with
  | Ok r1 =>
      match development_fields master output r1 with
      | Ok r2 => copy_fields output fields_after_development r2
      | Raise e => Raise e
      end
  | Raise e => Raise e
  end.

Definition project_results (master output : gmap string pyval)
  : result (gmap string pyval) :=
  let results : gmap string pyval := <["errors" := PList []]> ∅ in
  match master !! "error" with
  | None => Raise (KeyError "error")
  | Some errors =>
      match py_truth errors with
      | Raise e => Raise e
      | Ok true =>
          match errors with
          | PDict d => Ok (<["errors" := PList (error_messages d)]> results)
          | _ => Raise (AttributeError "items")
          end
      | Ok false => cost_record master output results
      end
  end.

Definition return_results : M state (gmap string pyval) :=
  fun st => (project_results (master_input_dict st) (output_dict st), st).

(** ** The whole function *)

(** Everything from line 175 on, once [master_input_dict] is bound. *)
Definition run_landbosse_body (sam_input_dict : odict) : M state (gmap string pyval) :=
  run! override_and_validate sam_input_dict in
  run! weather_stage sam_input_dict in
  run! geometry_stage in
  run! run_manager in
  return_results.

(** What follows the weather stage. *)
Definition after_weather : M state (gmap string pyval) :=
  run! geometry_stage in
  run! run_manager in
  return_results.

(** Lines 154-175: each project row builds a master input map and gives it
    an empty error map; the name stays bound to the last one. With no row
    the name is unbound, and its first use (line 186, 196 or 200, whichever
    comes first) raises [NameError]. *)
Definition initial_state (master : gmap string pyval) (h : Heap) : state :=
  {| master_input_dict := <["error" := PDict []]> master;
     output_dict := ∅; heap := h; calls := [] |}.

Definition run_landbosse (sam_input_dict : odict) (h : Heap)
  : result (gmap string pyval) * state :=
  match load_master_input_dictionaries ext h with
  | (Raise e, h') => (Raise e, initial_state ∅ h')
  | (Ok masters, h') =>
      match last masters with
      | None => (Raise (NameError "master_input_dict"), initial_state ∅ h')
      | Some master => run_landbosse_body sam_input_dict (initial_state master h')
      end
  end.

(** ** Notions used to state what the stages do *)

(** The master map after the loop of lines 192-196, entry by entry. *)
Fixpoint apply_overrides (sam_input_dict : odict) (keys : list string)
    (m : gmap string pyval) : gmap string pyval :=
  match keys with
  | [] => m
  | key :: rest =>
      apply_overrides sam_input_dict rest
        (if String.eqb key "weather_file_path" then m
         else match dict_get sam_input_dict key with
              | Some v => <[key := v]> m
              | None => m
              end)
  end.

(** The error map after lines 181-187. *)
Definition errors_after_scan (sam_input_dict : odict) (errors : odict) : odict :=
  match scan_for_negative sam_input_dict with
  | Some key =>
      dict_set errors "NegativeInputError" (PStr (negative_input_message key))
  | None => errors
  end.

(** The error map after the two turbine checks (lines 204-229), given how
    the three comparisons came out. *)
Definition errors_after_checks (above_ten too_large too_small : bool) (errors : odict)
  : odict :=
  let errors1 :=
    if above_ten then errors
    else dict_set errors "TurbineNumberError" (PStr turbine_number_message) in
  if too_large
  then dict_set errors1 "LargeTurbineSizeError" (PStr large_turbine_message)
  else if too_small
       then dict_set errors1 "SmallTurbineSizeError" (PStr small_turbine_message)
       else errors1.

(** The reading of the negative-value scan that reports the last negative
    key of the iteration order: what a scan that ran to the end and kept
    overwriting one slot would name. *)
Definition last_negative_key (sam_input_dict : odict) : option string :=
  scan_for_negative (rev sam_input_dict).


(** The output key whose value [copy_fields] leaves under [result_key]:
    the last pair for that key wins; [None] when no pair writes it. *)
Fixpoint source_of (fields : list (string * string)) (result_key : string)
  : option string :=
  match fields with
  | [] => None
  | (rk, output_key) :: rest =>
      match source_of rest result_key with
      | Some s => Some s
      | None => if String.eqb rk result_key then Some output_key else None
      end
  end.

(** ** Notions used to state what a stage may touch *)

(** [m] writes the master map only under keys in [allowed] and leaves the
    output map alone, whether it returns or raises. *)
Definition writes_only {A} (allowed : string -> Prop) (m : M state A) : Prop :=
  forall st r st',
    m st = (r, st') ->
    (forall k, ~ allowed k -> master_input_dict st' !! k = master_input_dict st !! k)
    /\ output_dict st' = output_dict st.


(** The [turbine_scaling] functions among logged calls, in order. *)
Definition scaling_calls (evs : list event) : list scaling_fn :=
  flat_map (fun ev => match ev with CallScaling f _ => [f] | _ => [] end) evs.

(** When [m] returns normally it has made exactly the scaling calls [fs],
    in that order, and no other call. *)
Definition makes_calls {A} (fs : list scaling_fn) (m : M state A) : Prop :=
  forall st a st',
    m st = (Ok a, st') ->
    exists new, calls st' = (calls st ++ new)%list
                /\ scaling_calls new = fs /\ length new = length fs.

(** The weather file the stage reads: the caller's, else the packaged one. *)
Definition weather_path (sam_input_dict : odict) : pyval :=
  match dict_get sam_input_dict "weather_file_path" with
  | Some p => p
  | None => PStr (input_output_path ext ++ "/project_data/az_rolling.srw")
  end.

End WithCollaborators.

End Run.

(* ================================================================== *)
(** * [read_data]                                                       *)
(* ================================================================== *)

Module ReadData.

Section WithReader.
Context {Heap : Type}.

(** What [read_data] calls: the workbook cache, which returns the sheets
    of [project_list] by name in workbook order, [pd.DataFrame()], and the
    two [XlsxReader] methods. *)
Record reader : Type := {
  read_all_sheets_from_xlsx : Heap -> result odict * Heap;
  empty_DataFrame : pyval;
  create_parametric_value_list : pyval -> Heap -> result pyval * Heap;
  outer_join_projects_to_parametric_values :
    pyval -> pyval -> Heap -> result pyval * Heap
}.

Variable rd : reader.

Definition sheet_error_message : string :=
  "Project list needs to have a single sheet or sheets named 'Project list' and 'Parametric list'.".

(** Lines 386-400: the pair (project_list, parametric_list). *)
Definition select_sheets (sheets : odict) : result (pyval * pyval) :=
  if Nat.eqb (length sheets) 1
  then match sheets with
       | (_, first_sheet) :: _ => Ok (first_sheet, empty_DataFrame rd)
       | [] => Raise (KeyError sheet_error_message)
       end
  else if dict_mem sheets "Parametric list" && dict_mem sheets "Project list"
       then match dict_get sheets "Project list", dict_get sheets "Parametric list" with
            | Some project_list, Some parametric_list =>
                Ok (project_list, parametric_list)
            | None, _ => Raise (KeyError "Project list")
            | _, None => Raise (KeyError "Parametric list")
            end
       else Raise (KeyError sheet_error_message).

(** Lines 382-410. *)
Definition read_data (h : Heap) : result pyval * Heap :=
  match read_all_sheets_from_xlsx rd h with
  | (Raise e, h1) => (Raise e, h1)
  | (Ok sheets, h1) =>
      match select_sheets sheets with
      | Raise e => (Raise e, h1)
      | Ok (project_list, parametric_list) =>
          match create_parametric_value_list rd parametric_list h1 with
          | (Raise e, h2) => (Raise e, h2)
          | (Ok parametric_value_list, h2) =>
              outer_join_projects_to_parametric_values rd project_list
                parametric_value_list h2
          end
      end
  end.

End WithReader.

End ReadData.

(* ================================================================== *)
(** * [lcoe_module_multiplier.py]                                       *)
(* ================================================================== *)

Module Lcoe.

#[local] Open Scope float_scope.

(** ** [preprocess_bos_module_cost]

    The function reads and writes three columns: [Module],
    [Cost per project] and [Modifications]. Whatever else a row carries
    ([other_columns]) is copied along. *)
Record line_item (K : Type) : Type := {
  other_columns : K;
  Module_ : string;
  Cost_per_project : float
}.
Arguments other_columns {K} _.
Arguments Module_ {K} _.
Arguments Cost_per_project {K} _.

Record labelled_item (K : Type) : Type := {
  item : line_item K;
  Modifications : string
}.
Arguments item {K} _.
Arguments Modifications {K} _.

Definition module_aliases : list string := ["Erection"; "Foundation"].

Section Brancher.
Context {K : Type}.

(** Lines 5-6. *)
Definition conventional (df : list (line_item K)) : list (labelled_item K) :=
  map (fun row => {| item := row; Modifications := "Conventional" |}) df.

(** Lines 14-18, for one row of [original]. *)
Definition modified_row (module_alias : string) (row : labelled_item K) : labelled_item K :=
  let module := (module_alias ++ "Cost")%string in
  let new_row := {| item := item row; Modifications := (module_alias ++ " 50%")%string |} in
  if String.eqb (Module_ (item new_row)) module
  then {| item := {| other_columns := other_columns (item new_row);
                     Module_ := Module_ (item new_row);
                     Cost_per_project := Cost_per_project (item new_row) * 0.5 |};
          Modifications := Modifications new_row |}
  else new_row.

(** Lines 10-18: the outer loop runs over the aliases, the inner one over
    the rows of [original]. *)
Definition modified_list (original : list (labelled_item K)) : list (labelled_item K) :=
  flat_map (fun module_alias => map (modified_row module_alias) original) module_aliases.

Definition preprocess_bos_module_cost (df : list (line_item K)) : list (labelled_item K) :=
  let original := conventional df in
  original ++ modified_list original.

End Brancher.

(** ** [main] *)

(** The columns line 36 keeps besides [Module] and [Cost per project]. *)
Record bos_columns : Type := {
  Number_of_turbines : float;
  Turbine_rating_MW : float;
  Hub_height_m : float;
  Labor_cost_multiplier : float;
  Crane_breakdown_fraction : float;
  Rotor_diameter_m : float
}.

Definition bos_row : Type := line_item bos_columns.

(** Modelled from the spec: the columns of [aep.csv] and [tcc.csv], which
    are not in the repository. Each carries the join key (rating in kW,
    rotor diameter, hub height) and its one measure. *)
Record aep_row : Type := {
  aep_Rating_kW : float; aep_Rotor_Diam_m : float; aep_Hub_height_m : float;
  AEP_kWh_yr : float
}.

Record tcc_row : Type := {
  tcc_Rating_kW : float; tcc_Rotor_Diam_m : float; tcc_Hub_height_m : float;
  TCC_USD_kW : float
}.

(** A row of [bos_sum]: the seven grouping columns and the summed cost. *)
Record bos_sum_row : Type := {
  Rating_kW : float;
  Rotor_Diam_m : float;
  bs_Number_of_turbines : float;
  Hub_height : float;
  bs_Labor_cost_multiplier : float;
  bs_Crane_breakdown_fraction : float;
  bs_Modifications : string;
  BOS_Capex_USD : float
}.

(** pandas matches join keys through a hash table in which a missing value
    equals a missing value; [0.0] and [-0.0] are one key. *)
Definition key_eq (a b : float) : bool :=
  PrimFloat.eqb a b || (PrimFloat.is_nan a && PrimFloat.is_nan b).

(** [left.merge(right, on=...)], an inner join: every pair of a left row
    and a right row whose keys agree, in the order of the left rows. *)
Definition merge {A B : Type} (on : A -> B -> bool) (left : list A) (right : list B)
  : list (A * B) :=
  flat_map (fun l => map (fun r => (l, r)) (filter (fun r => on l r) right)) left.

(** Lines 45-51: the grouping key and cost of a branched row. *)
Definition to_bos_sum_row (row : labelled_item bos_columns) (capex : float) : bos_sum_row :=
  let c := other_columns (item row) in
  {| Rating_kW := Turbine_rating_MW c * 1000;
     Rotor_Diam_m := Rotor_diameter_m c;
     bs_Number_of_turbines := Number_of_turbines c;
     Hub_height := Hub_height_m c;
     bs_Labor_cost_multiplier := Labor_cost_multiplier c;
     bs_Crane_breakdown_fraction := Crane_breakdown_fraction c;
     bs_Modifications := Modifications row;
     BOS_Capex_USD := capex |}.

Definition numeric_keys (r : bos_sum_row) : list float :=
  [Rating_kW r; Rotor_Diam_m r; bs_Number_of_turbines r; Hub_height r;
   bs_Labor_cost_multiplier r; bs_Crane_breakdown_fraction r].

Fixpoint compare_floats (xs ys : list float) : comparison :=
  match xs, ys with
  | x :: xs', y :: ys' =>
      match PrimFloat.compare x y with
      | FLt => Lt
      | FGt => Gt
      | _ => compare_floats xs' ys'
      end
  | [], [] => Eq
  | [], _ => Lt
  | _, [] => Gt
  end.

(** Lexicographic order on the grouping key. *)
Definition compare_keys (a b : bos_sum_row) : comparison :=
  match compare_floats (numeric_keys a) (numeric_keys b) with
  | Eq => String.compare (bs_Modifications a) (bs_Modifications b)
  | c => c
  end.

(** [groupby] leaves out rows with a missing value in a key column. *)
Definition has_missing_key (r : bos_sum_row) : bool :=
  existsb PrimFloat.is_nan (numeric_keys r).

(** One row enters the groups: it joins the group of its key, or opens a
    new one at the key's place in the sorted order. *)
Fixpoint add_to_groups (r : bos_sum_row) (groups : list bos_sum_row) : list bos_sum_row :=
  let opened :=
    {| Rating_kW := Rating_kW r; Rotor_Diam_m := Rotor_Diam_m r;
       bs_Number_of_turbines := bs_Number_of_turbines r; Hub_height := Hub_height r;
       bs_Labor_cost_multiplier := bs_Labor_cost_multiplier r;
       bs_Crane_breakdown_fraction := bs_Crane_breakdown_fraction r;
       bs_Modifications := bs_Modifications r;
       BOS_Capex_USD := 0 + BOS_Capex_USD r |} in
  match groups with
  | [] => [opened]
  | g :: rest =>
      match compare_keys r g with
      | Eq => {| Rating_kW := Rating_kW g; Rotor_Diam_m := Rotor_Diam_m g;
                 bs_Number_of_turbines := bs_Number_of_turbines g; Hub_height := Hub_height g;
                 bs_Labor_cost_multiplier := bs_Labor_cost_multiplier g;
                 bs_Crane_breakdown_fraction := bs_Crane_breakdown_fraction g;
                 bs_Modifications := bs_Modifications g;
                 BOS_Capex_USD := BOS_Capex_USD g + BOS_Capex_USD r |} :: rest
      | Lt => opened :: groups
      | Gt => g :: add_to_groups r rest
      end
  end.

(** Lines 55-57: [groupby(keys).sum().reset_index()]. The string column
    [Module] is not summed; costs add up in row order. *)
Definition groupby_sum (bos : list (labelled_item bos_columns)) : list bos_sum_row :=
  fold_left
    (fun groups row =>
       let r := to_bos_sum_row row (Cost_per_project (item row)) in
       if has_missing_key r then groups else add_to_groups r groups)
    bos [].

Definition aep_tcc_on (a : aep_row) (t : tcc_row) : bool :=
  key_eq (aep_Rating_kW a) (tcc_Rating_kW t)
  && key_eq (aep_Rotor_Diam_m a) (tcc_Rotor_Diam_m t)
  && key_eq (aep_Hub_height_m a) (tcc_Hub_height_m t).

Definition lcoe_on (at_ : aep_row * tcc_row) (b : bos_sum_row) : bool :=
  key_eq (aep_Rating_kW (fst at_)) (Rating_kW b)
  && key_eq (aep_Hub_height_m (fst at_)) (Hub_height b).

(** A row of the frame [lcoe] as line 91 writes it. *)
Record lcoe_row : Type := {
  joined : (aep_row * tcc_row) * bos_sum_row;
  FCR : float;
  Opex_USD_kW_yr : float;
  Total_Opex_USD : float;
  Turbine_Capex_USD : float;
  LCOE_USD_kWh : float
}.

(** The columns of [lcoe] that lines 84-88 read. After the second merge
    the key columns are the left frame's. *)
Definition lcoe_Rating_kW (j : (aep_row * tcc_row) * bos_sum_row) : float :=
  aep_Rating_kW (fst (fst j)).
Definition lcoe_Number_of_turbines (j : (aep_row * tcc_row) * bos_sum_row) : float :=
  bs_Number_of_turbines (snd j).
Definition lcoe_TCC (j : (aep_row * tcc_row) * bos_sum_row) : float :=
  TCC_USD_kW (snd (fst j)).
Definition lcoe_AEP (j : (aep_row * tcc_row) * bos_sum_row) : float :=
  AEP_kWh_yr (fst (fst j)).
Definition lcoe_BOS_Capex (j : (aep_row * tcc_row) * bos_sum_row) : float :=
  BOS_Capex_USD (snd j).

(** Lines 80-88, row by row. *)
Definition add_lcoe_columns (j : (aep_row * tcc_row) * bos_sum_row) : lcoe_row :=
  let fcr := 0.079 in
  let opex := 52.0 in
  let total_opex := opex * lcoe_Rating_kW j * lcoe_Number_of_turbines j in
  let turbine_capex := lcoe_TCC j * lcoe_Rating_kW j * lcoe_Number_of_turbines j in
  let capex_times_fcr := (lcoe_BOS_Capex j + turbine_capex) * fcr in
  let aep_all_turbines := lcoe_AEP j * lcoe_Number_of_turbines j in
  {| joined := j; FCR := fcr; Opex_USD_kW_yr := opex;
     Total_Opex_USD := total_opex; Turbine_Capex_USD := turbine_capex;
     LCOE_USD_kWh := (capex_times_fcr + total_opex) / aep_all_turbines |}.

(** [main], from the three frames it reads to the frame it writes. *)
Definition main (aep : list aep_row) (tcc : list tcc_row) (bos : list bos_row)
  : result (list lcoe_row) :=
  let bos := preprocess_bos_module_cost bos in
  let bos_sum := groupby_sum bos in
  let aep_tcc := merge aep_tcc_on aep tcc in
  if Nat.eqb (length aep_tcc) 0
  then Raise (OtherException "aep_tcc merge is empty")
  else
    let lcoe := merge lcoe_on aep_tcc bos_sum in
    if Nat.eqb (length bos_sum) 0
    then Raise (OtherException "bos_sum is empty.")
    else Ok (map add_lcoe_columns lcoe).

(** ** Notions used to state what the brancher does *)

(** [row] with its cost halved. *)
Definition halved {K} (row : line_item K) : line_item K :=
  {| other_columns := other_columns row; Module_ := Module_ row;
     Cost_per_project := Cost_per_project row * 0.5 |}.

(** The shape of a branched table over [targets]: the input rows first,
    labelled Conventional, then for the j-th target a block of copies
    labelled "<target> 50%", the i-th copy being the i-th input row with its
    cost halved exactly when its [Module] is [module_name target]. *)
Definition branched_as {K} (module_name : string -> string) (targets : list string)
    (df : list (line_item K)) (result : list (labelled_item K)) : Prop :=
  length result = ((1 + length targets) * length df)%nat
  /\ firstn (length df) result
     = map (fun row => {| item := row; Modifications := "Conventional" |}) df
  /\ forall (j : nat) target (i : nat) row,
       nth_error targets j = Some target ->
       nth_error df i = Some row ->
       nth_error result ((1 + j) * length df + i)
       = Some {| item := if String.eqb (Module_ row) (module_name target)
                         then halved row else row;
                 Modifications := (target ++ " 50%")%string |}.

(** The claim's reading: a row is halved when its [Module] is the target's
    own name, the one the label shows. *)
Definition branched_by_label {K} := @branched_as K (fun target => target).

(** The code's reading: the target named [alias] stands for the module
    [alias ++ "Cost"]. *)
Definition branched_by_module {K} :=
  @branched_as K (fun target => (target ++ "Cost")%string).

End Lcoe.

(* ================================================================== *)
(** * A concrete installation, for running the model                    *)
(* ================================================================== *)

Module Sample.
Import Run.

#[local] Open Scope float_scope.

(** The master input map of a one-project workbook. *)
Definition workbook_master : gmap string pyval :=
  list_to_map
    [ ("num_turbines", PInt 100); ("turbine_rating_MW", PFloat 1.5);
      ("hub_height_meters", PInt 80); ("rotor_diameter_m", PInt 77);
      ("labor_cost_multiplier", PInt 1); ("component_data", PObj 0%N);
      ("development_labor_cost_usd", PFloat 150000) ].

Definition hourly_row : weather_row :=
  (PFloat 12.5, PFloat 0.9, PInt 180, PFloat 7.25, PInt 0).

(** Every output key the result record reads, with one cost for all. *)
Definition full_output : gmap string pyval :=
  list_to_map
    (map (fun f : string * string => (snd f, PFloat 1000))
         (fields_up_to_development ++ fields_after_development)).

(** Collaborators that always succeed; the only weather file that exists
    is the packaged one, with 8760 rows. *)
Definition ext : @collaborators unit :=
  {| load_master_input_dictionaries := fun h => (Ok [workbook_master], h);
     apply_labor_multiplier_to_project_data_dict := fun _ h => (Ok tt, h);
     read_csv := fun path h =>
       match path with
       | PStr "/opt/landbosse/project_data/az_rolling.srw" =>
           (Ok (repeat hourly_row 8760), h)
       | PStr "/data/one_day.srw" => (Ok (repeat hourly_row 24), h)
       | PStr p => (Raise (FileNotFoundError p), h)
       | _ => (Raise TypeError, h)
       end;
     read_weather_window := fun _ h => (Ok (PObj 1%N), h);
     scaling := fun f _ h =>
       match f with
       | tower_specs => (Ok (PTuple [PInt 3; PFloat 26.5]), h)
       | _ => (Ok (PObj 0%N), h)
       end;
     execute_landbosse := fun m _ _ h => (Ok (m, full_output), h);
     builtin_str := fun v =>
       match v with
       | PExc (ValueError msg) => msg
       | PExc (FileNotFoundError p) => "No such file or directory: " ++ p
       | _ => "<object>"
       end;
     object_truth := fun _ => Ok true;
     input_output_path := "/opt/landbosse" |}.

(** The suggested inputs of the docstring. *)
Definition sam_defaults : odict :=
  [ ("interconnect_voltage_kV", PInt 137); ("distance_to_interconnect_mi", PInt 10);
    ("num_turbines", PInt 100); ("turbine_spacing_rotor_diameters", PInt 4);
    ("row_spacing_rotor_diameters", PInt 10); ("turbine_rating_MW", PFloat 1.5);
    ("rotor_diameter_m", PInt 77); ("hub_height_meters", PInt 80);
    ("wind_shear_exponent", PFloat 0.2); ("depth", PFloat 2.36);
    ("rated_thrust_N", PInt 589000); ("labor_cost_multiplier", PInt 1);
    ("gust_velocity_m_per_s", PFloat 59.5) ].

(** Five turbines of 9.5 MW and a negative depth. *)
Definition sam_three_faults : odict :=
  [ ("depth", PFloat (-2.36)); ("num_turbines", PInt 5);
    ("turbine_rating_MW", PFloat 9.5); ("labor_cost_multiplier", PInt 1) ].

(** Two negative entries. *)
Definition sam_two_negatives : odict :=
  [ ("labor_cost_multiplier", PInt 1); ("depth", PFloat (-2.36));
    ("num_turbines", PInt 100); ("rated_thrust_N", PInt (-589000));
    ("turbine_rating_MW", PFloat 1.5) ].

Definition start : @state unit := initial_state workbook_master tt.

(** ** Frames for the LCOE script *)

Definition columns_1500kW : Lcoe.bos_columns :=
  {| Lcoe.Number_of_turbines := 100; Lcoe.Turbine_rating_MW := 1.5;
     Lcoe.Hub_height_m := 80; Lcoe.Labor_cost_multiplier := 1;
     Lcoe.Crane_breakdown_fraction := 0; Lcoe.Rotor_diameter_m := 77 |}.

Definition cost_line (module : string) (cost : float) : Lcoe.bos_row :=
  {| Lcoe.other_columns := columns_1500kW; Lcoe.Module_ := module;
     Lcoe.Cost_per_project := cost |}.

Definition bos_1500kW : list Lcoe.bos_row :=
  [ cost_line "ErectionCost" 4000000; cost_line "FoundationCost" 6000000;
    cost_line "CollectionCost" 2000000 ].

Definition aep_1500kW : list Lcoe.aep_row :=
  [ {| Lcoe.aep_Rating_kW := 1500; Lcoe.aep_Rotor_Diam_m := 77;
       Lcoe.aep_Hub_height_m := 80; Lcoe.AEP_kWh_yr := 5000000 |} ].

Definition tcc_1500kW : list Lcoe.tcc_row :=
  [ {| Lcoe.tcc_Rating_kW := 1500; Lcoe.tcc_Rotor_Diam_m := 77;
       Lcoe.tcc_Hub_height_m := 80; Lcoe.TCC_USD_kW := 1000 |} ].

(** AEP and TCC for a 3 MW class only. *)
Definition aep_3000kW : list Lcoe.aep_row :=
  [ {| Lcoe.aep_Rating_kW := 3000; Lcoe.aep_Rotor_Diam_m := 120;
       Lcoe.aep_Hub_height_m := 80; Lcoe.AEP_kWh_yr := 11000000 |} ].

Definition tcc_3000kW : list Lcoe.tcc_row :=
  [ {| Lcoe.tcc_Rating_kW := 3000; Lcoe.tcc_Rotor_Diam_m := 120;
       Lcoe.tcc_Hub_height_m := 80; Lcoe.TCC_USD_kW := 900 |} ].

(** A line item whose [Module] is the bare word of the label. *)
Definition bare_erection : list Lcoe.bos_row := [ cost_line "Erection" 100 ].

(** ** A workbook reader *)

(** A reader over a fixed workbook: the parametric value list is the
    parametric sheet itself, the join pairs the two frames. *)
Definition reader_of (sheets : odict) : @ReadData.reader unit :=
  {| ReadData.read_all_sheets_from_xlsx := fun h => (Ok sheets, h);
     ReadData.empty_DataFrame := PObj 9%N;
     ReadData.create_parametric_value_list := fun parametric h => (Ok parametric, h);
     ReadData.outer_join_projects_to_parametric_values :=
       fun projects values h => (Ok (PTuple [projects; values]), h) |}.

(** Collaborators as [ext], but the weather file cannot be read at all:
    the read is interrupted from the keyboard. *)
Definition ext_interrupted : @collaborators unit :=
  {| load_master_input_dictionaries := load_master_input_dictionaries ext;
     apply_labor_multiplier_to_project_data_dict :=
       apply_labor_multiplier_to_project_data_dict ext;
     read_csv := fun _ h => (Raise (BaseOnly "KeyboardInterrupt"), h);
     read_weather_window := read_weather_window ext;
     scaling := scaling ext;
     execute_landbosse := execute_landbosse ext;
     builtin_str := builtin_str ext;
     object_truth := object_truth ext;
     input_output_path := input_output_path ext |}.

End Sample.

(* ================================================================== *)
(** * The synthetic time column                                         *)
(* ================================================================== *)

Module DatesSpec.
Import Dates.

#[local] Open Scope Z_scope.

(** The step bound of [daterange] is enough: more fuel changes nothing. *)
Lemma daterange_steps_enough (n m : nat) (start_date end_date : Z) :
  (Z.to_nat (end_date - start_date) <= n)%nat ->
  (Z.to_nat (end_date - start_date) <= m)%nat ->
  daterange_steps n start_date end_date = daterange_steps m start_date end_date.
Proof.
  revert m start_date. induction n as [|n IH]; intros m s Hn Hm.
  - destruct m as [|m]; simpl; [done|].
    destruct (s <? end_date) eqn:E; [|done]. apply Z.ltb_lt in E. lia.
  - destruct m as [|m]; simpl.
    + destruct (s <? end_date) eqn:E; [|done]. apply Z.ltb_lt in E. lia.
    + destruct (s <? end_date) eqn:E; [|done]. apply Z.ltb_lt in E.
      f_equal. apply IH; unfold timedelta_hours; lia.
Qed.

Lemma default_date_time_length : length default_date_time = 8760%nat.
Proof. vm_compute. reflexivity. Qed.

Lemma default_date_time_first : hd_error default_date_time = Some "2011-12-31 00:00".
Proof. vm_compute. reflexivity. Qed.

Lemma default_date_time_last : last default_date_time = Some "2012-12-29 23:00".
Proof. vm_compute. reflexivity. Qed.

Lemma default_date_time_leap_day :
  nth_error default_date_time 1440 = Some "2012-02-29 00:00".
Proof. vm_compute. reflexivity. Qed.

End DatesSpec.

(* ================================================================== *)
(** * Properties of [run_landbosse]                                     *)
(* ================================================================== *)

Module RunSpec.
Import Run.

(** ** Dictionaries *)

Lemma dict_get_set_same (d : odict) k v : dict_get (dict_set d k v) k = Some v.
Proof.
  induction d as [|[k' v'] d IH]; simpl.
  - by rewrite String.eqb_refl.
  - destruct (String.eqb k' k) eqn:E; simpl; rewrite E; [done | exact IH].
Qed.

Lemma dict_get_set_other (d : odict) k k' v :
  k <> k' -> dict_get (dict_set d k v) k' = dict_get d k'.
Proof.
  intros Hne. induction d as [|[k0 v0] d IH]; simpl.
  - destruct (String.eqb k k') eqn:E; [|done].
    apply String.eqb_eq in E. contradiction.
  - destruct (String.eqb k0 k) eqn:E; simpl.
    + apply String.eqb_eq in E. subst k0.
      destruct (String.eqb k k') eqn:E'; [|done].
      apply String.eqb_eq in E'. contradiction.
    + by rewrite IH.
Qed.

Lemma dict_get_key (d : odict) k : In k (dict_keys d) -> is_Some (dict_get d k).
Proof.
  induction d as [|[k' v'] d IH]; simpl; [tauto|].
  intros [->|Hin].
  - rewrite String.eqb_refl. eauto.
  - destruct (String.eqb k' k); eauto.
Qed.

Lemma dict_get_None_keys (d : odict) k : dict_get d k = None -> ~ In k (dict_keys d).
Proof.
  intros Hnone Hin. apply dict_get_key in Hin. rewrite Hnone in Hin.
  by destruct Hin.
Qed.

(** ** The negative-value scan *)

Lemma scan_for_negative_first pre key value post :
  Forall (fun item => is_negative_number (snd item) = false) pre ->
  is_negative_number value = true ->
  scan_for_negative (pre ++ (key, value) :: post) = Some key.
Proof.
  intros Hpre Hneg. induction Hpre as [|[k v] pre Hk _ IH]; simpl.
  - by rewrite Hneg.
  - simpl in Hk. by rewrite Hk.
Qed.


Section Stages.
Context {Heap : Type} (ext : @collaborators Heap).
Implicit Types (st : @state Heap) (sam : odict).

Lemma with_master_id st : with_master (fun m => m) st = st.
Proof. by destruct st. Qed.

Lemma bind_Ok {A B} (m : M (@state Heap) A) (k : A -> M (@state Heap) B) st a st' :
  m st = (Ok a, st') -> bind m k st = k a st'.
Proof. unfold bind. by intros ->. Qed.

Lemma bind_Raise {A B} (m : M (@state Heap) A) (k : A -> M (@state Heap) B) st e st' :
  m st = (Raise e, st') -> bind m k st = (Raise e, st').
Proof. unfold bind. by intros ->. Qed.

Lemma record_error_dict kind value st d :
  master_input_dict st !! "error" = Some (PDict d) ->
  record_error kind value st
  = (Ok tt, with_master (<["error" := PDict (dict_set d kind value)]>) st).
Proof. intros H. unfold record_error, bind, getitem. by rewrite H. Qed.

Lemma negative_input_check_run sam st d :
  master_input_dict st !! "error" = Some (PDict d) ->
  exists st',
    negative_input_check sam st = (Ok tt, st')
    /\ master_input_dict st' !! "error" = Some (PDict (errors_after_scan sam d))
    /\ heap st' = heap st /\ calls st' = calls st /\ output_dict st' = output_dict st.
Proof.
  intros H. unfold negative_input_check, errors_after_scan.
  destruct (scan_for_negative sam) as [key|].
  - rewrite (record_error_dict _ _ _ _ H). eexists; split; [done|].
    simpl. by rewrite lookup_insert_eq.
  - by exists st.
Qed.

Lemma override_loop_run sam keys st :
  Forall (fun k => is_Some (dict_get sam k)) keys ->
  override_loop sam keys st = (Ok tt, with_master (apply_overrides sam keys) st).
Proof.
  intros Hkeys. revert st. induction Hkeys as [|key keys [v Hv] _ IH]; intros st.
  - simpl. by rewrite with_master_id.
  - simpl. unfold bind at 1.
    destruct (String.eqb key "weather_file_path") eqn:E.
    + unfold ret. rewrite IH. by destruct st.
    + unfold sam_getitem. rewrite Hv. unfold bind, ret, setitem. rewrite IH.
      by destruct st.
Qed.

Lemma apply_overrides_notin sam keys (m : gmap string pyval) k :
  ~ In k keys -> apply_overrides sam keys m !! k = m !! k.
Proof.
  revert m. induction keys as [|key keys IH]; intros m Hnot; [done|].
  simpl. rewrite IH by (intros ?; apply Hnot; by right).
  assert (key <> k) by (intros ->; apply Hnot; by left).
  destruct (String.eqb key "weather_file_path"); [done|].
  destruct (dict_get sam key); [|done]. by rewrite lookup_insert_ne.
Qed.

Lemma apply_overrides_in sam keys (m : gmap string pyval) k v :
  In k keys -> k <> "weather_file_path" -> dict_get sam k = Some v ->
  apply_overrides sam keys m !! k = Some v.
Proof.
  revert m. induction keys as [|key keys IH]; intros m Hin Hw Hv; [done|].
  simpl. destruct (in_dec string_dec k keys) as [Hrest|Hrest].
  - by apply IH.
  - destruct Hin as [->|Hin]; [|contradiction].
    rewrite apply_overrides_notin by done.
    destruct (String.eqb k "weather_file_path") eqn:E.
    + apply String.eqb_eq in E. contradiction.
    + rewrite Hv. by rewrite lookup_insert_eq.
Qed.

Lemma dict_get_Some_key (d : odict) k v : dict_get d k = Some v -> In k (dict_keys d).
Proof.
  induction d as [|[k' v'] d IH]; simpl; [done|].
  destruct (String.eqb k' k) eqn:E.
  - apply String.eqb_eq in E. by left.
  - intros H. right. by apply IH.
Qed.

Lemma dict_keys_all_bound sam :
  Forall (fun k => is_Some (dict_get sam k)) (dict_keys sam).
Proof. apply Forall_forall. intros k Hk. by apply dict_get_key, list_elem_of_In. Qed.

Lemma update_labor_cost_run st lcm h' :
  master_input_dict st !! "labor_cost_multiplier" = Some lcm ->
  apply_labor_multiplier_to_project_data_dict ext lcm (heap st) = (Ok tt, h') ->
  update_labor_cost ext st
  = (Ok tt, with_heap h' (log (CallApplyLaborMultiplier lcm) st)).
Proof.
  intros Hm Hcall. unfold update_labor_cost, bind, getitem, call. rewrite Hm.
  simpl. by rewrite Hcall.
Qed.

Lemma check_num_turbines_run sam st d n (above : bool) :
  master_input_dict st !! "error" = Some (PDict d) ->
  dict_get sam "num_turbines" = Some n -> py_gt n 10 = Ok above ->
  check_num_turbines sam st
  = (Ok tt,
     if above then with_master (<["num_turbines" := n]>) st
     else with_master
            (<["error" := PDict (dict_set d "TurbineNumberError"
                                   (PStr turbine_number_message))]>) st).
Proof.
  intros He Hn Hgt.
  unfold check_num_turbines, try_except, bind, sam_getitem, lift. rewrite Hn.
  unfold ret. rewrite Hgt. destruct above.
  - done.
  - unfold raise. simpl. by rewrite (record_error_dict _ _ _ _ He).
Qed.

Lemma check_turbine_rating_run sam st d r (too_large too_small : bool) :
  master_input_dict st !! "error" = Some (PDict d) ->
  dict_get sam "turbine_rating_MW" = Some r ->
  py_gt r 8 = Ok too_large -> py_lt r 1 = Ok too_small ->
  check_turbine_rating sam st
  = (Ok tt,
     if too_large
     then with_master
            (<["error" := PDict (dict_set d "LargeTurbineSizeError"
                                   (PStr large_turbine_message))]>) st
     else if too_small
          then with_master
                 (<["error" := PDict (dict_set d "SmallTurbineSizeError"
                                        (PStr small_turbine_message))]>) st
          else with_master (<["turbine_rating_MW" := r]>) st).
Proof.
  intros He Hr Hgt Hlt.
  unfold check_turbine_rating, try_except, bind, sam_getitem, lift. rewrite Hr.
  unfold ret. rewrite Hgt. destruct too_large.
  - unfold raise. simpl. by rewrite (record_error_dict _ _ _ _ He).
  - rewrite Hlt. destruct too_small.
    + unfold raise. simpl. by rewrite (record_error_dict _ _ _ _ He).
    + done.
Qed.

Lemma override_and_validate_run sam st d lcm h' n r (above too_large too_small : bool) :
  master_input_dict st !! "error" = Some (PDict d) ->
  dict_get sam "error" = None ->
  dict_get sam "labor_cost_multiplier" = Some lcm ->
  apply_labor_multiplier_to_project_data_dict ext lcm (heap st) = (Ok tt, h') ->
  dict_get sam "num_turbines" = Some n -> py_gt n 10 = Ok above ->
  dict_get sam "turbine_rating_MW" = Some r ->
  py_gt r 8 = Ok too_large -> py_lt r 1 = Ok too_small ->
  exists st',
    override_and_validate ext sam st = (Ok tt, st')
    /\ master_input_dict st' !! "error"
       = Some (PDict (errors_after_checks above too_large too_small
                        (errors_after_scan sam d)))
    /\ master_input_dict st' !! "num_turbines" = Some n
    /\ master_input_dict st' !! "turbine_rating_MW" = Some r
    /\ heap st' = h'
    /\ calls st' = (calls st ++ [CallApplyLaborMultiplier lcm])%list
    /\ output_dict st' = output_dict st.
Proof.
  intros He Hnoerr Hlcm Hcall Hn Hgt10 Hr Hgt8 Hlt1.
  destruct (negative_input_check_run sam st d He)
    as (st1 & Hrun1 & He1 & Hh1 & Hc1 & Ho1).
  unfold override_and_validate.
  rewrite (bind_Ok _ _ _ _ _ Hrun1).
  rewrite (bind_Ok _ _ _ _ _ (override_loop_run sam _ st1 (dict_keys_all_bound sam))).
  set (st2 := with_master (apply_overrides sam (dict_keys sam)) st1).
  assert (He2 : master_input_dict st2 !! "error"
                = Some (PDict (errors_after_scan sam d))).
  { simpl. rewrite apply_overrides_notin; [done|]. by apply dict_get_None_keys. }
  assert (Hover : forall k v, k <> "weather_file_path" -> dict_get sam k = Some v ->
                              master_input_dict st2 !! k = Some v).
  { intros k v Hk Hv. simpl. apply apply_overrides_in; [|done..].
    by apply (dict_get_Some_key _ _ v). }
  assert (Hcall2 : apply_labor_multiplier_to_project_data_dict ext lcm (heap st2)
                   = (Ok tt, h')) by (simpl; by rewrite Hh1).
  assert (Hl2 : master_input_dict st2 !! "labor_cost_multiplier" = Some lcm)
    by (by apply Hover).
  rewrite (bind_Ok _ _ _ _ _ (update_labor_cost_run st2 lcm h' Hl2 Hcall2)).
  set (st3 := with_heap h' (log (CallApplyLaborMultiplier lcm) st2)).
  rewrite (bind_Ok _ _ _ _ _ (check_num_turbines_run sam st3 _ n above He2 Hn Hgt10)).
  set (st4 := if above then _ else _).
  assert (He4 : master_input_dict st4 !! "error"
                = Some (PDict (if above then errors_after_scan sam d
                               else dict_set (errors_after_scan sam d)
                                      "TurbineNumberError" (PStr turbine_number_message)))).
  { subst st4. destruct above; simpl.
    - by rewrite lookup_insert_ne.
    - by rewrite lookup_insert_eq. }
  assert (Hn4 : master_input_dict st4 !! "num_turbines" = Some n).
  { subst st4. destruct above; simpl.
    - by rewrite lookup_insert_eq.
    - rewrite lookup_insert_ne by done. by apply Hover. }
  assert (Hr4 : master_input_dict st4 !! "turbine_rating_MW" = Some r).
  { subst st4. destruct above; simpl; rewrite lookup_insert_ne by done; by apply Hover. }
  assert (Hrest : heap st4 = h' /\ calls st4 = (calls st ++ [CallApplyLaborMultiplier lcm])%list
                  /\ output_dict st4 = output_dict st).
  { subst st4. destruct above; simpl; rewrite Hc1, Ho1; auto. }
  rewrite (check_turbine_rating_run sam st4 _ r too_large too_small He4 Hr Hgt8 Hlt1).
  eexists. split; [done|]. unfold errors_after_checks.
  destruct Hrest as (Hh4 & Hc4 & Ho4).
  destruct too_large; [|destruct too_small]; simpl;
    rewrite ?lookup_insert_eq, ?lookup_insert_ne by done;
    rewrite ?He4, ?Hn4, ?Hr4, Hh4, Hc4, Ho4; by destruct above.
Qed.

(** ** Claims on lines 181-229 *)


(** C1, as the code has it: the loop of lines 192-196 has already copied
    every override, so after the stage the master map's num_turbines and
    turbine_rating_MW are the caller's values, also when a check fails; a
    failing check adds its entry to the error map and nothing else. *)
Theorem overrides_reach_master_when_checks_fail
    sam st d lcm h' n r (above too_large too_small : bool) :
  master_input_dict st !! "error" = Some (PDict d) ->
  dict_get sam "error" = None ->
  dict_get sam "labor_cost_multiplier" = Some lcm ->
  apply_labor_multiplier_to_project_data_dict ext lcm (heap st) = (Ok tt, h') ->
  dict_get sam "num_turbines" = Some n -> py_gt n 10 = Ok above ->
  dict_get sam "turbine_rating_MW" = Some r ->
  py_gt r 8 = Ok too_large -> py_lt r 1 = Ok too_small ->
  exists st' errors,
    override_and_validate ext sam st = (Ok tt, st')
    /\ master_input_dict st' !! "num_turbines" = Some n
    /\ master_input_dict st' !! "turbine_rating_MW" = Some r
    /\ master_input_dict st' !! "error" = Some (PDict errors)
    /\ (above = false -> is_Some (dict_get errors "TurbineNumberError"))
    /\ (too_large = true -> is_Some (dict_get errors "LargeTurbineSizeError"))
    /\ (too_large = false -> too_small = true ->
        is_Some (dict_get errors "SmallTurbineSizeError")).
Proof.
  intros He Hnoerr Hlcm Hcall Hn Hgt10 Hr Hgt8 Hlt1.
  destruct (override_and_validate_run sam st d lcm h' n r above too_large too_small)
    as (st' & Hrun & He' & Hn' & Hr' & _); try done.
  exists st', (errors_after_checks above too_large too_small (errors_after_scan sam d)).
  repeat split; try done; unfold errors_after_checks.
  - intros ->. destruct too_large; [|destruct too_small];
      rewrite ?dict_get_set_other by done; rewrite dict_get_set_same; eauto.
  - intros ->. rewrite dict_get_set_same; eauto.
  - intros -> ->. rewrite dict_get_set_same; eauto.
Qed.

(** C3, as the code has it: the scan stops at the first negative number, so
    a fresh scenario's error map gets exactly one NegativeInputError entry
    and its message names the first negative key of the iteration order,
    however many negative entries follow. *)
Theorem negative_input_names_first_key (pre : odict) key value (post : odict)
    master (h : Heap) :
  Forall (fun item => is_negative_number (snd item) = false) pre ->
  is_negative_number value = true ->
  exists st',
    negative_input_check ((pre ++ (key, value) :: post)%list) (initial_state master h)
    = (Ok tt, st')
    /\ master_input_dict st' !! "error"
       = Some (PDict [("NegativeInputError", PStr (negative_input_message key))]).
Proof.
  intros Hpre Hneg.
  destruct (negative_input_check_run ((pre ++ (key, value) :: post)%list)
              (initial_state master h) [])
    as (st' & Hrun & He & _).
  { simpl. by rewrite lookup_insert_eq. }
  exists st'. split; [done|]. rewrite He. unfold errors_after_scan.
  by rewrite (scan_for_negative_first pre key value post Hpre Hneg).
Qed.

(** ** The weather stage (lines 240-262) *)



(** A frame that does not have 8760 rows fails at the [insert] of line 248. *)
Lemma wrong_row_count_raises sam st path df h' :
  (if dict_mem sam "weather_file_path"
   then dict_get sam "weather_file_path" = Some path
   else path = PStr (input_output_path ext ++ "/project_data/az_rolling.srw")) ->
  read_csv ext path (heap st) = (Ok df, h') ->
  length df <> 8760%nat ->
  exists st',
    weather_try_body ext sam st
    = (Raise (ValueError "Length of values does not match length of index"), st').
Proof.
  intros Hpath Hread Hlen. unfold weather_try_body. unfold bind at 1.
  assert (Hdf : (if dict_mem sam "weather_file_path"
                 then let! p := sam_getitem sam "weather_file_path" in
                      read_weather_data ext p
                 else read_weather_data ext
                        (PStr (input_output_path ext ++ "/project_data/az_rolling.srw")))
                  st
                = (Ok df, with_heap h' (log (CallReadWeatherData path) st))).
  { destruct (dict_mem sam "weather_file_path").
    - unfold bind, sam_getitem. rewrite Hpath. unfold ret, read_weather_data, call.
      simpl. by rewrite Hread.
    - subst path. unfold read_weather_data, call. simpl. by rewrite Hread. }
  rewrite Hdf. unfold bind, lift, insert_time.
  assert (Hl : length Dates.default_date_time = 8760%nat) by (vm_compute; reflexivity).
  rewrite Hl. destruct (Nat.eqb 8760 (length df)) eqn:E.
  - apply Nat.eqb_eq in E. congruence.
  - eauto.
Qed.


(** ** The orchestrator (lines 309-310) *)

(** C5, as the code has it: once the geometry stage has returned, the
    orchestrator is invoked, whatever the error map holds; the map is read
    only afterwards, to choose what to return. *)
Theorem orchestrator_runs_before_errors_are_read st st1 :
  geometry_stage ext st = (Ok tt, st1) ->
  calls (snd (after_weather ext st))
  = (calls st1 ++ [CallExecuteLandbosse project_id_with_serial])%list
  /\ forall m o h,
       execute_landbosse ext (master_input_dict st1) (output_dict st1)
         project_id_with_serial (heap st1) = (Ok (m, o), h) ->
       fst (after_weather ext st) = project_results ext m o.
Proof.
  intros Hgeo. unfold after_weather. rewrite (bind_Ok _ _ _ _ _ Hgeo).
  unfold bind, run_manager, return_results. simpl.
  destruct (execute_landbosse ext _ _ _ _) as [[[m o]|e] h]; simpl.
  - split; [done|]. by intros m' o' h' [= <- <- <-].
  - split; [done|]. intros m' o' h' [=].
Qed.

(** ** The result record (lines 314-377) *)

Lemma copy_fields_total (out : gmap string pyval) fields (r0 : gmap string pyval) :
  Forall (fun f => is_Some (out !! snd f)) fields ->
  exists r, copy_fields out fields r0 = Ok r.
Proof.
  intros H. revert r0. induction H as [|[rk ok] fields [v Hv] _ IH]; intros r0; simpl.
  - eauto.
  - simpl in Hv. rewrite Hv. apply IH.
Qed.

Lemma copy_fields_lookup (out : gmap string pyval) fields (r0 r : gmap string pyval) k :
  copy_fields out fields r0 = Ok r ->
  r !! k = match source_of fields k with
           | Some output_key => out !! output_key
           | None => r0 !! k
           end.
Proof.
  revert r0. induction fields as [|[rk ok] fields IH]; intros r0; simpl.
  - by intros [= ->].
  - destruct (out !! ok) as [v|] eqn:Hv; [|done]. intros Hrun.
    rewrite (IH _ Hrun). destruct (source_of fields k); [done|].
    destruct (String.eqb rk k) eqn:E.
    + apply String.eqb_eq in E. subst rk. by rewrite lookup_insert_eq.
    + apply String.eqb_neq in E. by rewrite lookup_insert_ne.
Qed.

Lemma copy_fields_written (out : gmap string pyval) fields (r0 r : gmap string pyval)
    k output_key :
  copy_fields out fields r0 = Ok r -> source_of fields k = Some output_key ->
  r !! k = out !! output_key.
Proof. intros Hrun Hs. by rewrite (copy_fields_lookup _ _ _ _ k Hrun), Hs. Qed.

Lemma copy_fields_untouched (out : gmap string pyval) fields (r0 r : gmap string pyval) k :
  copy_fields out fields r0 = Ok r -> source_of fields k = None -> r !! k = r0 !! k.
Proof. intros Hrun Hs. by rewrite (copy_fields_lookup _ _ _ _ k Hrun), Hs. Qed.

(** The success branch, step by step. *)
Lemma success_branch_run (m out : gmap string pyval) errors :
  m !! "error" = Some errors -> py_truth ext errors = Ok false ->
  Forall (fun f => is_Some (out !! snd f))
    (fields_up_to_development ++ fields_after_development) ->
  (is_Some (out !! "Development labor cost USD") ->
   is_Some (m !! "development_labor_cost_usd")) ->
  exists r1 r2 r3,
    copy_fields out fields_up_to_development (<["errors" := PList []]> ∅) = Ok r1
    /\ development_fields m out r1 = Ok r2
    /\ copy_fields out fields_after_development r2 = Ok r3
    /\ project_results ext m out = Ok r3.
Proof.
  intros He Htruth Hkeys Hdev. apply Forall_app in Hkeys as [Hup Hafter].
  destruct (copy_fields_total out _ (<["errors" := PList []]> ∅) Hup) as [r1 Hr1].
  assert (Hr2 : exists r2, development_fields m out r1 = Ok r2).
  { unfold development_fields. case_decide as Hin.
    - destruct (Hdev Hin) as [v ->]. eauto.
    - eauto. }
  destruct Hr2 as [r2 Hr2].
  destruct (copy_fields_total out _ r2 Hafter) as [r3 Hr3].
  exists r1, r2, r3. repeat split; try done.
  unfold project_results. rewrite He, Htruth. unfold cost_record.
  by rewrite Hr1, Hr2.
Qed.

Lemma development_fields_lookup (m out r1 r2 : gmap string pyval) k :
  development_fields m out r1 = Ok r2 ->
  k <> "development_labor_usd" -> k <> "development_material_usd" ->
  k <> "development_mobilization_usd" -> k <> "development_equipment_rental_usd" ->
  r2 !! k = r1 !! k.
Proof.
  unfold development_fields. intros H H1 H2 H3 H4. case_decide.
  - destruct (m !! "development_labor_cost_usd"); [|done].
    injection H as <-. by rewrite !lookup_insert_ne.
  - injection H as <-. by rewrite !lookup_insert_ne.
Qed.

Lemma development_fields_zero (m out r1 r2 : gmap string pyval) :
  development_fields m out r1 = Ok r2 ->
  r2 !! "development_labor_usd" = Some (PInt 0)
  /\ r2 !! "development_material_usd" = Some (PInt 0)
  /\ r2 !! "development_mobilization_usd" = Some (PInt 0)
  /\ r2 !! "development_equipment_rental_usd"
     = (if decide (is_Some (out !! "Development labor cost USD"))
        then m !! "development_labor_cost_usd"
        else r1 !! "development_equipment_rental_usd").
Proof.
  unfold development_fields. intros H. case_decide.
  - destruct (m !! "development_labor_cost_usd"); [|done].
    injection H as <-.
    repeat split; rewrite ?lookup_insert_eq, ?lookup_insert_ne by done;
      rewrite ?lookup_insert_eq; done.
  - injection H as <-.
    repeat split; rewrite ?lookup_insert_eq, ?lookup_insert_ne by done;
      rewrite ?lookup_insert_eq; done.
Qed.

Ltac through_record H1 H2 H3 :=
  first
    [ apply (copy_fields_written _ _ _ _ _ _ H3); reflexivity
    | rewrite (copy_fields_untouched _ _ _ _ _ H3) by reflexivity;
      rewrite (development_fields_lookup _ _ _ _ _ H2) by done;
      first
        [ apply (copy_fields_written _ _ _ _ _ _ H1); reflexivity
        | rewrite (copy_fields_untouched _ _ _ _ _ H1) by reflexivity ] ].

(** C9: when the error map is empty and the orchestrator has filled its
    output map, the record returned holds errors = [] next to total_bos_cost
    and every per-category cost field, each equal to the output entry it is
    read from. *)
Theorem success_record_has_empty_errors (m out : gmap string pyval) errors :
  m !! "error" = Some errors -> py_truth ext errors = Ok false ->
  Forall (fun f => is_Some (out !! snd f))
    (fields_up_to_development ++ fields_after_development) ->
  (is_Some (out !! "Development labor cost USD") ->
   is_Some (m !! "development_labor_cost_usd")) ->
  exists results,
    project_results ext m out = Ok results
    /\ results !! "errors" = Some (PList [])
    /\ results !! "total_bos_cost" = out !! "project_value_usd"
    /\ is_Some (results !! "total_bos_cost")
    /\ Forall (fun f => results !! fst f = out !! snd f /\ is_Some (results !! fst f))
         (fields_up_to_development ++ fields_after_development).
Proof.
  intros He Htruth Hkeys Hdev.
  destruct (success_branch_run m out errors He Htruth Hkeys Hdev)
    as (r1 & r2 & r3 & H1 & H2 & H3 & Hrun).
  exists r3. split; [done|].
  assert (Hfields : Forall (fun f => r3 !! fst f = out !! snd f)
                      (fields_up_to_development ++ fields_after_development)).
  { repeat constructor; simpl; through_record H1 H2 H3. }
  assert (Hbos : r3 !! "total_bos_cost" = out !! "project_value_usd")
    by through_record H1 H2 H3.
  split; [|split; [done|split]].
  - through_record H1 H2 H3. by rewrite lookup_insert_eq.
  - rewrite Hbos. rewrite Forall_forall in Hkeys.
    apply (Hkeys ("total_bos_cost", "project_value_usd")). by left.
  - apply Forall_forall. intros f Hf. rewrite Forall_forall in Hfields, Hkeys.
    split; [by apply Hfields|]. rewrite (Hfields f Hf). by apply Hkeys.
Qed.

(** C10: in the record of a successful run the three fields
    development_labor_usd, development_material_usd and
    development_mobilization_usd are the integer 0 whatever the output map
    holds, and development_equipment_rental_usd is there exactly when the
    output map has the key 'Development labor cost USD'. *)
Theorem development_fields_of_success (m out : gmap string pyval) errors :
  m !! "error" = Some errors -> py_truth ext errors = Ok false ->
  Forall (fun f => is_Some (out !! snd f))
    (fields_up_to_development ++ fields_after_development) ->
  (is_Some (out !! "Development labor cost USD") ->
   is_Some (m !! "development_labor_cost_usd")) ->
  exists results,
    project_results ext m out = Ok results
    /\ results !! "development_labor_usd" = Some (PInt 0)
    /\ results !! "development_material_usd" = Some (PInt 0)
    /\ results !! "development_mobilization_usd" = Some (PInt 0)
    /\ (is_Some (results !! "development_equipment_rental_usd")
        <-> is_Some (out !! "Development labor cost USD")).
Proof.
  intros He Htruth Hkeys Hdev.
  destruct (success_branch_run m out errors He Htruth Hkeys Hdev)
    as (r1 & r2 & r3 & H1 & H2 & H3 & Hrun).
  destruct (development_fields_zero m out r1 r2 H2) as (Hl & Hma & Hmo & Heq).
  exists r3. split; [done|].
  rewrite !(copy_fields_untouched _ _ _ _ _ H3) by reflexivity.
  repeat split; try done.
  - rewrite Heq. case_decide as Hin; [done|].
    rewrite (copy_fields_untouched _ _ _ _ _ H1) by reflexivity.
    rewrite lookup_insert_ne by done. rewrite lookup_empty. by intros [? ?].
  - intros Hin. rewrite Heq. rewrite decide_True by done. by apply Hdev.
Qed.

End Stages.


(** C1 as stated fails: the workbook gives 100 turbines of 1.5 MW, the
    caller 5 turbines of 9.5 MW; both checks fail, and the master map
    holds 5 and 9.5 afterwards, not 100 and 1.5. *)
Lemma failing_overrides_are_written :
  py_gt (PInt 5) 10 = Ok false /\ py_gt (PFloat 9.5) 8 = Ok true
  /\ exists st',
       override_and_validate Sample.ext Sample.sam_three_faults Sample.start = (Ok tt, st')
       /\ master_input_dict Sample.start !! "num_turbines" = Some (PInt 100)
       /\ master_input_dict st' !! "num_turbines" = Some (PInt 5)
       /\ master_input_dict Sample.start !! "turbine_rating_MW" = Some (PFloat 1.5)
       /\ master_input_dict st' !! "turbine_rating_MW" = Some (PFloat 9.5)
       /\ master_input_dict st' !! "num_turbines"
          <> master_input_dict Sample.start !! "num_turbines"
       /\ master_input_dict st' !! "turbine_rating_MW"
          <> master_input_dict Sample.start !! "turbine_rating_MW".
Proof.
  split; [reflexivity|]. split; [reflexivity|].
  eexists. split; [vm_compute; reflexivity|].
  repeat split; try (vm_compute; reflexivity); vm_compute; discriminate.
Qed.

Lemma overrides_reach_master_when_checks_fail_witness :
  exists st' errors,
    override_and_validate Sample.ext Sample.sam_three_faults Sample.start = (Ok tt, st')
    /\ master_input_dict st' !! "num_turbines" = Some (PInt 5)
    /\ master_input_dict st' !! "turbine_rating_MW" = Some (PFloat 9.5)
    /\ master_input_dict st' !! "error" = Some (PDict errors)
    /\ (false = false -> is_Some (dict_get errors "TurbineNumberError"))
    /\ (true = true -> is_Some (dict_get errors "LargeTurbineSizeError"))
    /\ (true = false -> false = true ->
        is_Some (dict_get errors "SmallTurbineSizeError")).
Proof.
  apply (overrides_reach_master_when_checks_fail Sample.ext Sample.sam_three_faults
           Sample.start [] (PInt 1) tt (PInt 5) (PFloat 9.5) false true false);
    vm_compute; reflexivity.
Defined.

(** C3 as stated fails: with negative entries under depth and then under
    rated_thrust_N, the last negative key is rated_thrust_N, yet the single
    NegativeInputError entry names depth, and so does the report the run
    returns. *)
Lemma two_negatives_report_the_first :
  last_negative_key Sample.sam_two_negatives = Some "rated_thrust_N"
  /\ (exists st',
        negative_input_check Sample.sam_two_negatives Sample.start = (Ok tt, st')
        /\ master_input_dict st' !! "error"
           = Some (PDict [("NegativeInputError",
                           PStr (negative_input_message "depth"))]))
  /\ negative_input_message "depth" <> negative_input_message "rated_thrust_N"
  /\ (exists results,
        fst (run_landbosse Sample.ext Sample.sam_two_negatives tt) = Ok results
        /\ results !! "errors"
           = Some (PList [PStr "Error in NegativeInputError: User entered a negative value for depth. This is an invalid entry"])).
Proof.
  split; [reflexivity|]. split.
  { eexists. split; vm_compute; reflexivity. }
  split; [vm_compute; discriminate|].
  eexists. split; vm_compute; reflexivity.
Qed.

Lemma negative_input_names_first_key_witness :
  exists st',
    negative_input_check
      ([("labor_cost_multiplier", PInt 1)] ++ ("depth", PFloat (-2.36)%float)
         :: [("num_turbines", PInt 100); ("rated_thrust_N", PInt (-589000));
             ("turbine_rating_MW", PFloat 1.5%float)])%list
      (initial_state Sample.workbook_master tt)
    = (Ok tt, st')
    /\ master_input_dict st' !! "error"
       = Some (PDict [("NegativeInputError", PStr (negative_input_message "depth"))]).
Proof.
  apply (negative_input_names_first_key
           [("labor_cost_multiplier", PInt 1)] "depth" (PFloat (-2.36)%float)
           [("num_turbines", PInt 100); ("rated_thrust_N", PInt (-589000));
            ("turbine_rating_MW", PFloat 1.5%float)]
           Sample.workbook_master tt).
  - repeat constructor.
  - reflexivity.
Defined.


(** C5 as stated fails: five turbines of 9.5 MW and a negative depth leave
    three entries in the error map after the validation and weather stages,
    and the run still calls the orchestrator, as the last of its calls. *)
Lemma orchestrator_runs_with_errors_pending :
  (exists st2,
     (run! override_and_validate Sample.ext Sample.sam_three_faults
      in weather_stage Sample.ext Sample.sam_three_faults) Sample.start = (Ok tt, st2)
     /\ master_input_dict st2 !! "error"
        = Some (PDict [ ("NegativeInputError", PStr (negative_input_message "depth"));
                        ("TurbineNumberError", PStr turbine_number_message);
                        ("LargeTurbineSizeError", PStr large_turbine_message) ]))
  /\ last (calls (snd (run_landbosse Sample.ext Sample.sam_three_faults tt)))
     = Some (CallExecuteLandbosse "SAM_Run")
  /\ In (CallExecuteLandbosse "SAM_Run")
        (calls (snd (run_landbosse Sample.ext Sample.sam_three_faults tt))).
Proof.
  split; [eexists; split; vm_compute; reflexivity|].
  split; [vm_compute; reflexivity|].
  vm_compute. tauto.
Qed.

(** The state in which the failing scenario above reaches the geometry stage. *)
Lemma orchestrator_runs_before_errors_are_read_witness :
  let st := snd ((run! override_and_validate Sample.ext Sample.sam_three_faults
                  in weather_stage Sample.ext Sample.sam_three_faults) Sample.start) in
  let st1 := snd (geometry_stage Sample.ext st) in
  calls (snd (after_weather Sample.ext st))
  = (calls st1 ++ [CallExecuteLandbosse project_id_with_serial])%list
  /\ forall m o h,
       execute_landbosse Sample.ext (master_input_dict st1) (output_dict st1)
         project_id_with_serial (heap st1) = (Ok (m, o), h) ->
       fst (after_weather Sample.ext st) = project_results Sample.ext m o.
Proof.
  intros st st1.
  apply (orchestrator_runs_before_errors_are_read Sample.ext st st1).
  vm_compute. reflexivity.
Defined.

(** The record of the docstring's inputs. *)
Lemma success_record_has_empty_errors_witness :
  exists results,
    project_results Sample.ext (<["error" := PDict []]> Sample.workbook_master)
      Sample.full_output = Ok results
    /\ results !! "errors" = Some (PList [])
    /\ results !! "total_bos_cost" = Sample.full_output !! "project_value_usd"
    /\ is_Some (results !! "total_bos_cost")
    /\ Forall (fun f => results !! fst f = Sample.full_output !! snd f
                        /\ is_Some (results !! fst f))
         (fields_up_to_development ++ fields_after_development).
Proof.
  apply (success_record_has_empty_errors Sample.ext
           (<["error" := PDict []]> Sample.workbook_master) Sample.full_output (PDict [])).
  - vm_compute. reflexivity.
  - reflexivity.
  - repeat constructor; vm_compute; eauto.
  - intros _. vm_compute. eauto.
Defined.

(** An output map that also has the development labor key. *)
Lemma development_fields_of_success_witness :
  exists results,
    project_results Sample.ext (<["error" := PDict []]> Sample.workbook_master)
      (<["Development labor cost USD" := PFloat 150000%float]> Sample.full_output)
    = Ok results
    /\ results !! "development_labor_usd" = Some (PInt 0)
    /\ results !! "development_material_usd" = Some (PInt 0)
    /\ results !! "development_mobilization_usd" = Some (PInt 0)
    /\ (is_Some (results !! "development_equipment_rental_usd")
        <-> is_Some ((<["Development labor cost USD" := PFloat 150000%float]>
                        Sample.full_output) !! "Development labor cost USD")).
Proof.
  apply (development_fields_of_success Sample.ext
           (<["error" := PDict []]> Sample.workbook_master)
           (<["Development labor cost USD" := PFloat 150000%float]> Sample.full_output)
           (PDict [])).
  - vm_compute. reflexivity.
  - reflexivity.
  - repeat constructor; vm_compute; eauto.
  - intros _. vm_compute. eauto.
Defined.

End RunSpec.

(* ================================================================== *)
(** * Properties of the LCOE script                                     *)
(* ================================================================== *)

Module LcoeSpec.
Import Lcoe.

#[local] Open Scope float_scope.

(** ** The brancher *)

Section Brancher.
Context {K : Type}.
Implicit Types (df : list (line_item K)) (row : line_item K).

Lemma conventional_length df : length (conventional df) = length df.
Proof. unfold conventional. apply length_map. Qed.

Lemma modified_row_of_conventional module_alias row :
  modified_row module_alias {| item := row; Modifications := "Conventional" |}
  = {| item := if String.eqb (Module_ row) (module_alias ++ "Cost")%string
               then halved row else row;
       Modifications := (module_alias ++ " 50%")%string |}.
Proof. unfold modified_row, halved. simpl. by destruct (String.eqb _ _). Qed.

Lemma nth_error_modified module_alias df i row :
  nth_error df i = Some row ->
  nth_error (map (modified_row module_alias) (conventional df)) i
  = Some {| item := if String.eqb (Module_ row) (module_alias ++ "Cost")%string
                    then halved row else row;
            Modifications := (module_alias ++ " 50%")%string |}.
Proof.
  intros Hrow. unfold conventional. rewrite !nth_error_map, Hrow. simpl.
  by rewrite modified_row_of_conventional.
Qed.

Lemma preprocess_blocks df :
  preprocess_bos_module_cost df
  = (conventional df
     ++ map (modified_row "Erection") (conventional df)
     ++ map (modified_row "Foundation") (conventional df))%list.
Proof.
  unfold preprocess_bos_module_cost, modified_list, module_aliases. simpl.
  by rewrite app_nil_r.
Qed.

(** C6, as the code has it: n input rows give 3 n rows; the first n are
    the input rows labelled Conventional; then come the n copies labelled
    "Erection 50%" and the n copies labelled "Foundation 50%", where a copy
    has its cost multiplied by 0.5 exactly when its Module is ErectionCost,
    respectively FoundationCost, and is the input row otherwise. *)
Theorem preprocess_branches_by_module df :
  branched_by_module module_aliases df (preprocess_bos_module_cost df).
Proof.
  unfold branched_by_module, branched_as. rewrite preprocess_blocks.
  pose proof (conventional_length df) as Hlen.
  split; [|split].
  - rewrite !length_app, !length_map, Hlen. simpl. lia.
  - rewrite <- Hlen at 1. rewrite firstn_app, Nat.sub_diag, firstn_all. simpl.
    by rewrite app_nil_r.
  - intros j target i row Htarget Hrow.
    assert (Hi : (i < length df)%nat) by (apply nth_error_Some; congruence).
    destruct j as [|[|j]]; simpl in Htarget.
    + injection Htarget as <-.
      rewrite nth_error_app2 by (rewrite Hlen; lia).
      rewrite nth_error_app1 by (rewrite length_map, Hlen; lia).
      replace ((1 + 0) * length df + i - length (conventional df))%nat with i
        by (rewrite Hlen; lia).
      by apply nth_error_modified.
    + injection Htarget as <-.
      rewrite nth_error_app2 by (rewrite Hlen; lia).
      rewrite nth_error_app2 by (rewrite length_map, Hlen; lia).
      replace ((1 + 1) * length df + i - length (conventional df)
               - length (map (modified_row "Erection") (conventional df)))%nat with i
        by (rewrite length_map, Hlen; lia).
      by apply nth_error_modified.
    + by destruct j.
Qed.

End Brancher.

(** C6 as stated fails: a row whose Module is the word Erection, the name
    the label "Erection 50%" shows, keeps its cost of 100 in that copy; the
    code halves rows of the module ErectionCost. *)
Lemma bare_label_is_not_halved :
  ~ branched_by_label module_aliases Sample.bare_erection
      (preprocess_bos_module_cost Sample.bare_erection).
Proof.
  intros (_ & _ & H).
  specialize (H 0%nat "Erection" 0%nat (Sample.cost_line "Erection" 100)
                eq_refl eq_refl).
  apply (f_equal (fun found =>
                    match found with
                    | Some r => PrimFloat.eqb (Cost_per_project (item r)) 100
                    | None => false
                    end)) in H.
  vm_compute in H. discriminate.
Qed.

(** ** The joins and the two guards *)

Lemma merge_nil_r {A B} (on : A -> B -> bool) (left : list A) : merge on left [] = [].
Proof. unfold merge. induction left as [|l left IH]; simpl; [done|exact IH]. Qed.

Lemma length_zero_iff {A} (l : list A) : Nat.eqb (length l) 0 = true <-> l = [].
Proof. destruct l; simpl; split; done. Qed.

Lemma main_unfold aep tcc bos :
  main aep tcc bos
  = match merge aep_tcc_on aep tcc, groupby_sum (preprocess_bos_module_cost bos) with
    | [], _ => Raise (OtherException "aep_tcc merge is empty")
    | _ :: _, [] => Raise (OtherException "bos_sum is empty.")
    | (_ :: _) as aep_tcc, (_ :: _) as bos_sum =>
        Ok (map add_lcoe_columns (merge lcoe_on aep_tcc bos_sum))
    end.
Proof.
  unfold main. destruct (merge aep_tcc_on aep tcc); [done|].
  by destruct (groupby_sum _).
Qed.

(** C4, as the code has it: [main] raises exactly when the join of AEP
    with TCC is empty or the grouped BOS table is empty. The guard after the
    second join reads the grouped BOS table, so it fires only on the empty
    final joins that come from an empty BOS table; otherwise [main] returns
    the LCOE rows of the final join, however few. *)
Theorem main_raises_iff_an_input_table_is_empty aep tcc bos :
  let aep_tcc := merge aep_tcc_on aep tcc in
  let bos_sum := groupby_sum (preprocess_bos_module_cost bos) in
  let lcoe := merge lcoe_on aep_tcc bos_sum in
  (main aep tcc bos = Raise (OtherException "aep_tcc merge is empty") <-> aep_tcc = [])
  /\ (main aep tcc bos = Raise (OtherException "bos_sum is empty.")
      <-> aep_tcc <> [] /\ bos_sum = [])
  /\ (main aep tcc bos = Ok (map add_lcoe_columns lcoe)
      <-> aep_tcc <> [] /\ bos_sum <> [])
  /\ (is_Ok (main aep tcc bos) = false <-> aep_tcc = [] \/ bos_sum = [])
  /\ (bos_sum = [] -> lcoe = []).
Proof.
  intros aep_tcc bos_sum lcoe. rewrite main_unfold.
  subst lcoe. fold aep_tcc bos_sum.
  destruct aep_tcc as [|a aep_tcc]; [|destruct bos_sum as [|b bos_sum]]; simpl.
  all: repeat split; try done.
  all: try (by intros [? ?]); try (by left); try (by right); try (by intros [?|?]).
  all: intros _; by rewrite merge_nil_r.
Qed.

(** C4 as stated fails: AEP and TCC know a 3 MW class only, the BOS costs
    are for 1.5 MW turbines. The first join has a row, the final join has
    none, and [main] returns an empty LCOE table instead of raising. *)
Lemma empty_final_join_is_not_detected :
  merge aep_tcc_on Sample.aep_3000kW Sample.tcc_3000kW <> []
  /\ merge lcoe_on (merge aep_tcc_on Sample.aep_3000kW Sample.tcc_3000kW)
       (groupby_sum (preprocess_bos_module_cost Sample.bos_1500kW)) = []
  /\ main Sample.aep_3000kW Sample.tcc_3000kW Sample.bos_1500kW = Ok [].
Proof. repeat split; vm_compute; done. Qed.

(** The grouped BOS table is empty exactly when no row has a complete key. *)
Lemma add_to_groups_not_nil r groups : add_to_groups r groups <> [].
Proof. destruct groups as [|g rest]; simpl; [done|]. by destruct (compare_keys r g). Qed.

Lemma groupby_sum_nil_iff bos :
  groupby_sum bos = []
  <-> Forall (fun row =>
                has_missing_key (to_bos_sum_row row (Cost_per_project (item row))) = true)
        bos.
Proof.
  unfold groupby_sum.
  assert (Hgen : forall rows acc,
            fold_left
              (fun groups row =>
                 let r := to_bos_sum_row row (Cost_per_project (item row)) in
                 if has_missing_key r then groups else add_to_groups r groups)
              rows acc = []
            <-> acc = []
                /\ Forall (fun row =>
                     has_missing_key
                       (to_bos_sum_row row (Cost_per_project (item row))) = true) rows).
  { induction rows as [|row rows IH]; intros acc; simpl.
    - split; [by intros ->|by intros [-> _]].
    - rewrite IH.
      destruct (has_missing_key (to_bos_sum_row row (Cost_per_project (item row))))
        eqn:E.
      + split; intros [Hacc Hall]; split; try done.
        * by constructor.
        * by inversion Hall.
      + split.
        * intros [Hacc _]. by apply add_to_groups_not_nil in Hacc.
        * intros [_ Hall]. inversion Hall; congruence. }
  rewrite Hgen. split; [by intros [_ ?]|done].
Qed.

(** ** The LCOE columns *)



End LcoeSpec.

(* ================================================================== *)
(** * What the stages of [run_landbosse] touch, need and call           *)
(* ================================================================== *)

Module RunFrames.
Import Run.

Section Frames.
Context {Heap : Type} (ext : @collaborators Heap).
Implicit Types (st : @state Heap) (sam : odict) (P : string -> Prop).

(** ** [writes_only], statement by statement *)

Lemma writes_only_mono {A} P (Q : string -> Prop) (m : M (@state Heap) A) :
  (forall k, P k -> Q k) -> writes_only P m -> writes_only Q m.
Proof.
  intros HPQ Hm st r st' Hrun. destruct (Hm st r st' Hrun) as [Hk Ho].
  split; [|done]. intros k Hnot. apply Hk. intros HP. by apply Hnot, HPQ.
Qed.

Lemma writes_only_ret {A} P (a : A) : writes_only P (ret (St := @state Heap) a).
Proof. intros st r st' [= <- <-]. done. Qed.

Lemma writes_only_raise {A} P e : writes_only P (raise (St := @state Heap) (A := A) e).
Proof. intros st r st' [= <- <-]. done. Qed.

Lemma writes_only_lift {A} P (x : result A) : writes_only P (lift (St := @state Heap) x).
Proof. intros st r st' [= <- <-]. done. Qed.

Lemma writes_only_getitem P k : writes_only P (getitem (Heap := Heap) k).
Proof.
  intros st r st'. unfold getitem.
  destruct (master_input_dict st !! k); intros [= <- <-]; done.
Qed.

Lemma writes_only_sam_getitem P sam k : writes_only P (sam_getitem (Heap := Heap) sam k).
Proof.
  unfold sam_getitem. destruct (dict_get sam k).
  - apply writes_only_ret.
  - apply writes_only_raise.
Qed.

Lemma writes_only_setitem P k v : P k -> writes_only P (setitem (Heap := Heap) k v).
Proof.
  intros HP st r st' [= <- <-]. split; [|done]. intros k' Hnot. simpl.
  apply lookup_insert_ne. intros ->. contradiction.
Qed.

Lemma writes_only_call {A} P ev (f : Heap -> result A * Heap) : writes_only P (call ev f).
Proof.
  intros st r st' Hrun. unfold call in Hrun. destruct (f _) as [r0 h0].
  injection Hrun as <- <-. done.
Qed.

Lemma writes_only_bind {A B} P (m : M (@state Heap) A) (k : A -> M (@state Heap) B) :
  writes_only P m -> (forall a, writes_only P (k a)) -> writes_only P (bind m k).
Proof.
  intros Hm Hk st r st' Hrun. unfold bind in Hrun.
  destruct (m st) as [[a|e] st1] eqn:Hm1.
  - destruct (Hm _ _ _ Hm1) as [H1 Ho1]. destruct (Hk a _ _ _ Hrun) as [H2 Ho2].
    split; [|congruence]. intros k0 Hnot. rewrite H2, H1; done.
  - injection Hrun as <- <-. by apply (Hm _ _ _ Hm1).
Qed.

Lemma writes_only_bind_raise {A B} P e (k : A -> M (@state Heap) B) :
  writes_only P (bind (raise e) k).
Proof. intros st r st' [= <- <-]. done. Qed.

Lemma writes_only_try {A} P (body : M (@state Heap) A) catches handler :
  writes_only P body -> (forall e, writes_only P (handler e)) ->
  writes_only P (try_except body catches handler).
Proof.
  intros Hb Hh st r st' Hrun. unfold try_except in Hrun.
  destruct (body st) as [[a|e] st1] eqn:Hb1.
  - injection Hrun as <- <-. by apply (Hb _ _ _ Hb1).
  - destruct (Hb _ _ _ Hb1) as [H1 Ho1]. destruct (catches e).
    + destruct (Hh e _ _ _ Hrun) as [H2 Ho2].
      split; [|congruence]. intros k0 Hnot. rewrite H2, H1; done.
    + injection Hrun as <- <-. done.
Qed.

Lemma writes_only_record_error P kind value :
  P "error" -> writes_only P (record_error (Heap := Heap) kind value).
Proof.
  intros HP. unfold record_error. apply writes_only_bind.
  - apply writes_only_getitem.
  - intros slot. destruct slot; try apply writes_only_raise.
    by apply writes_only_setitem.
Qed.

Lemma writes_only_override_loop P sam keys :
  (forall k, In k keys -> k <> "weather_file_path" -> P k) ->
  writes_only P (override_loop (Heap := Heap) sam keys).
Proof.
  induction keys as [|key keys IH]; intros HP; simpl.
  - apply writes_only_ret.
  - apply writes_only_bind.
    + destruct (String.eqb key "weather_file_path") eqn:E.
      * apply writes_only_ret.
      * apply writes_only_bind; [apply writes_only_sam_getitem|].
        intros v. apply writes_only_setitem. apply HP; [by left|].
        by apply String.eqb_neq.
    + intros _. apply IH. intros k Hk. apply HP. by right.
Qed.

Lemma writes_only_override_and_validate sam :
  writes_only
    (fun k => k = "error" \/ (In k (dict_keys sam) /\ k <> "weather_file_path"))
    (override_and_validate ext sam).
Proof.
  unfold override_and_validate.
  apply writes_only_bind; [|intros _; apply writes_only_bind;
                             [|intros _; apply writes_only_bind;
                                [|intros _; apply writes_only_bind; [|intros _]]]].
  - unfold negative_input_check. destruct (scan_for_negative sam).
    + apply writes_only_record_error. by left.
    + apply writes_only_ret.
  - apply writes_only_override_loop. intros k Hk Hw. by right.
  - unfold update_labor_cost. apply writes_only_bind; [apply writes_only_getitem|].
    intros v. apply writes_only_call.
  - unfold check_num_turbines, sam_getitem.
    destruct (dict_get sam "num_turbines") as [n|] eqn:Hn.
    + apply writes_only_try.
      * apply writes_only_bind; [apply writes_only_ret|]. intros n0.
        apply writes_only_bind; [apply writes_only_lift|]. intros above.
        destruct above; [|apply writes_only_raise].
        apply writes_only_bind; [apply writes_only_ret|]. intros n1.
        apply writes_only_setitem. right. split; [|done].
        by apply (RunSpec.dict_get_Some_key _ _ n).
      * intros _. apply writes_only_record_error. by left.
    + apply writes_only_try.
      * apply writes_only_bind_raise.
      * intros _. apply writes_only_record_error. by left.
  - unfold check_turbine_rating, sam_getitem.
    destruct (dict_get sam "turbine_rating_MW") as [r|] eqn:Hr.
    + apply writes_only_try; [|intros _; apply writes_only_record_error; by left].
      apply writes_only_try; [|intros _; apply writes_only_record_error; by left].
      apply writes_only_bind; [apply writes_only_ret|]. intros r0.
      apply writes_only_bind; [apply writes_only_lift|]. intros too_large.
      destruct too_large; [apply writes_only_raise|].
      apply writes_only_bind; [apply writes_only_ret|]. intros r1.
      apply writes_only_bind; [apply writes_only_lift|]. intros too_small.
      destruct too_small; [apply writes_only_raise|].
      apply writes_only_bind; [apply writes_only_ret|]. intros r2.
      apply writes_only_setitem. right. split; [|done].
      by apply (RunSpec.dict_get_Some_key _ _ r).
    + apply writes_only_try; [|intros _; apply writes_only_record_error; by left].
      apply writes_only_try; [|intros _; apply writes_only_record_error; by left].
      apply writes_only_bind_raise.
Qed.

Lemma writes_only_weather_stage sam :
  writes_only (fun k => k = "error" \/ k = "weather_window") (weather_stage ext sam).
Proof.
  unfold weather_stage. apply writes_only_try.
  - unfold weather_try_body. apply writes_only_bind.
    + destruct (dict_mem sam "weather_file_path").
      * apply writes_only_bind; [apply writes_only_sam_getitem|].
        intros p. apply writes_only_call.
      * apply writes_only_call.
    + intros df. apply writes_only_bind; [apply writes_only_lift|]. intros wt.
      apply writes_only_bind; [apply writes_only_call|]. intros w.
      apply writes_only_setitem. by right.
  - intros e. apply writes_only_record_error. by left.
Qed.

Lemma writes_only_reset_component_index :
  writes_only (fun k => k = "component_data") (reset_component_index ext).
Proof.
  unfold reset_component_index.
  apply writes_only_bind; [apply writes_only_getitem|]. intros cd.
  apply writes_only_bind; [apply writes_only_call|]. intros cd'.
  by apply writes_only_setitem.
Qed.

Ltac frame_step :=
  first
    [ apply writes_only_getitem
    | apply writes_only_call
    | apply writes_only_lift
    | apply writes_only_reset_component_index
    | apply writes_only_setitem; reflexivity
    | apply writes_only_bind; [|intros ?] ].

Lemma writes_only_geometry_stage :
  writes_only (fun k => k = "component_data") (geometry_stage ext).
Proof.
  unfold geometry_stage, call_scaling.
  repeat frame_step.
  match goal with |- writes_only _ (let '(_, _) := ?p in _) => destruct p end.
  repeat frame_step.
Qed.

(** X1: the override-and-validation stage writes the master map only
    under 'error' and under the caller's own keys other than
    'weather_file_path'; every other entry, 'weather_file_path' included,
    and the output map are as before, whether the stage returns or raises. *)
Theorem override_stage_writes_only_caller_keys sam st k :
  k <> "error" ->
  (~ In k (dict_keys sam) \/ k = "weather_file_path") ->
  master_input_dict (snd (override_and_validate ext sam st)) !! k
  = master_input_dict st !! k
  /\ output_dict (snd (override_and_validate ext sam st)) = output_dict st.
Proof.
  intros Herr Hk.
  destruct (override_and_validate ext sam st) as [r st'] eqn:Hrun.
  destruct (writes_only_override_and_validate sam st r st' Hrun) as [Hm Ho].
  split; [|done]. apply Hm. intros [?|[Hin Hw]]; [done|]. by destruct Hk.
Qed.

(** X2: the weather stage writes the master map only under 'error' and
    'weather_window', and never the output map, whatever the outcome. *)
Theorem weather_stage_writes_only_its_keys sam st k :
  k <> "error" -> k <> "weather_window" ->
  master_input_dict (snd (weather_stage ext sam st)) !! k = master_input_dict st !! k
  /\ output_dict (snd (weather_stage ext sam st)) = output_dict st.
Proof.
  intros Herr Hw.
  destruct (weather_stage ext sam st) as [r st'] eqn:Hrun.
  destruct (writes_only_weather_stage sam st r st' Hrun) as [Hm Ho].
  split; [|done]. apply Hm. by intros [?|?].
Qed.

(** X3: the geometry stage writes the master map only under
    'component_data': the error map, the overrides and the output map
    reach the orchestrator as the earlier stages left them. *)
Theorem geometry_stage_writes_only_component_data st k :
  k <> "component_data" ->
  master_input_dict (snd (geometry_stage ext st)) !! k = master_input_dict st !! k
  /\ output_dict (snd (geometry_stage ext st)) = output_dict st.
Proof.
  intros Hk.
  destruct (geometry_stage ext st) as [r st'] eqn:Hrun.
  destruct (writes_only_geometry_stage st r st' Hrun) as [Hm Ho].
  split; [|done]. by apply Hm.
Qed.

(** ** What the geometry stage needs *)









(** ** The calls the geometry stage makes *)

Lemma scaling_calls_app evs1 evs2 :
  scaling_calls (evs1 ++ evs2) = (scaling_calls evs1 ++ scaling_calls evs2)%list.
Proof. unfold scaling_calls. apply flat_map_app. Qed.

Lemma makes_calls_silent {A} (m : M (@state Heap) A) :
  (forall st r st', m st = (r, st') -> calls st' = calls st) -> makes_calls [] m.
Proof.
  intros H st a st' Hrun. exists []. rewrite app_nil_r. split; [|done].
  by apply (H st (Ok a)).
Qed.

Lemma makes_calls_getitem k : makes_calls [] (getitem (Heap := Heap) k).
Proof.
  apply makes_calls_silent. intros st r st'. unfold getitem.
  destruct (_ !! _); by intros [= <- <-].
Qed.

Lemma makes_calls_setitem k v : makes_calls [] (setitem (Heap := Heap) k v).
Proof. apply makes_calls_silent. by intros st r st' [= <- <-]. Qed.

Lemma makes_calls_lift {A} (x : result A) : makes_calls [] (lift (St := @state Heap) x).
Proof. apply makes_calls_silent. by intros st r st' [= <- <-]. Qed.

Lemma makes_calls_call_scaling f args : makes_calls [f] (call_scaling ext f args).
Proof.
  intros st a st'. unfold call_scaling, call.
  destruct (scaling ext f args _) as [r h]. intros [= -> <-].
  exists [CallScaling f args]. done.
Qed.

Lemma makes_calls_bind {A B} fs1 fs2 (m : M (@state Heap) A) (k : A -> M (@state Heap) B) :
  makes_calls fs1 m -> (forall a, makes_calls fs2 (k a)) ->
  makes_calls (fs1 ++ fs2) (bind m k).
Proof.
  intros Hm Hk st b st' Hrun. unfold bind in Hrun.
  destruct (m st) as [[a|e] st1] eqn:Hm1; [|discriminate].
  destruct (Hm _ _ _ Hm1) as (new1 & Hc1 & Hs1 & Hl1).
  destruct (Hk a _ _ _ Hrun) as (new2 & Hc2 & Hs2 & Hl2).
  exists (new1 ++ new2)%list. rewrite Hc2, Hc1, <- app_assoc.
  rewrite scaling_calls_app, !length_app, Hs1, Hs2, Hl1, Hl2. done.
Qed.

Lemma makes_calls_quiet_then {A B} fs (m : M (@state Heap) A) (k : A -> M (@state Heap) B) :
  makes_calls [] m -> (forall a, makes_calls fs (k a)) -> makes_calls fs (bind m k).
Proof. intros Hm Hk. by apply (makes_calls_bind [] fs). Qed.

Lemma makes_calls_one_then {A B} f fs (m : M (@state Heap) A) (k : A -> M (@state Heap) B) :
  makes_calls [f] m -> (forall a, makes_calls fs (k a)) -> makes_calls (f :: fs) (bind m k).
Proof. intros Hm Hk. by apply (makes_calls_bind [f] fs). Qed.

Lemma makes_calls_reset : makes_calls [reset_index] (reset_component_index ext).
Proof.
  unfold reset_component_index.
  apply makes_calls_quiet_then; [apply makes_calls_getitem|]. intros cd.
  apply (makes_calls_bind [reset_index] []); [apply makes_calls_call_scaling|].
  intros cd'. apply makes_calls_setitem.
Qed.

Ltac count_call :=
  first
    [ apply makes_calls_reset
    | apply makes_calls_quiet_then;
      [ first [apply makes_calls_getitem | apply makes_calls_setitem
              | apply makes_calls_lift] | intros ? ]
    | apply makes_calls_one_then;
      [ first [apply makes_calls_call_scaling | apply makes_calls_reset] | intros ? ] ].

Lemma geometry_stage_makes_calls :
  makes_calls
    [ nacelle_mass; edit_nacelle_info; reset_index;
      hub_mass; edit_hub_info; reset_index;
      blade_mass_ton; edit_blade_info; reset_index;
      tower_mass; tower_specs; edit_tower_sections; reset_index ]
    (geometry_stage ext).
Proof.
  unfold geometry_stage.
  repeat count_call.
  match goal with |- makes_calls _ (let '(_, _) := ?p in _) => destruct p end.
  repeat count_call.
Qed.

(** X5: a geometry stage that returns has made thirteen calls and no
    other: mass, edit, reset_index for the nacelle, the hub and the blades,
    then tower_mass, tower_specs, edit_tower_sections and reset_index, in
    that order; every edit of the component table is followed by
    reset_index before the table is read again. *)
Theorem geometry_stage_call_order st st' :
  geometry_stage ext st = (Ok tt, st') ->
  exists new,
    calls st' = (calls st ++ new)%list
    /\ scaling_calls new
       = [ nacelle_mass; edit_nacelle_info; reset_index;
           hub_mass; edit_hub_info; reset_index;
           blade_mass_ton; edit_blade_info; reset_index;
           tower_mass; tower_specs; edit_tower_sections; reset_index ]
    /\ length new = 13%nat.
Proof.
  apply (geometry_stage_makes_calls st tt st').
Qed.

End Frames.

Lemma override_stage_writes_only_caller_keys_witness :
  master_input_dict
    (snd (override_and_validate Sample.ext Sample.sam_three_faults Sample.start))
    !! "hub_height_meters"
  = master_input_dict Sample.start !! "hub_height_meters"
  /\ output_dict (snd (override_and_validate Sample.ext Sample.sam_three_faults
                         Sample.start))
     = output_dict Sample.start.
Proof.
  apply (override_stage_writes_only_caller_keys Sample.ext Sample.sam_three_faults
           Sample.start "hub_height_meters").
  - discriminate.
  - left. vm_compute. intuition discriminate.
Defined.

Lemma weather_stage_writes_only_its_keys_witness :
  master_input_dict (snd (weather_stage Sample.ext Sample.sam_defaults Sample.start))
    !! "num_turbines"
  = master_input_dict Sample.start !! "num_turbines"
  /\ output_dict (snd (weather_stage Sample.ext Sample.sam_defaults Sample.start))
     = output_dict Sample.start.
Proof.
  apply (weather_stage_writes_only_its_keys Sample.ext Sample.sam_defaults
           Sample.start "num_turbines"); discriminate.
Defined.

Lemma geometry_stage_writes_only_component_data_witness :
  master_input_dict (snd (geometry_stage Sample.ext Sample.start)) !! "error"
  = master_input_dict Sample.start !! "error"
  /\ output_dict (snd (geometry_stage Sample.ext Sample.start))
     = output_dict Sample.start.
Proof.
  apply (geometry_stage_writes_only_component_data Sample.ext Sample.start "error").
  discriminate.
Defined.


Lemma geometry_stage_call_order_witness :
  exists new,
    calls (snd (geometry_stage Sample.ext Sample.start))
    = (calls Sample.start ++ new)%list
    /\ scaling_calls new
       = [ nacelle_mass; edit_nacelle_info; reset_index;
           hub_mass; edit_hub_info; reset_index;
           blade_mass_ton; edit_blade_info; reset_index;
           tower_mass; tower_specs; edit_tower_sections; reset_index ]
    /\ length new = 13%nat.
Proof.
  apply (geometry_stage_call_order Sample.ext Sample.start
           (snd (geometry_stage Sample.ext Sample.start))).
  vm_compute. reflexivity.
Defined.

End RunFrames.

(* ================================================================== *)
(** * Error and edge behaviour of the validation stage                  *)
(* ================================================================== *)

Module RunErrors.
Import Run.



Section Errors.
Context {Heap : Type} (ext : @collaborators Heap).
Implicit Types (st : @state Heap) (sam : odict).

(** Lines 181-201 when they return: what the turbine checks start from. *)
Lemma validate_prefix_run sam st d lcm h' :
  master_input_dict st !! "error" = Some (PDict d) ->
  dict_get sam "error" = None ->
  dict_get sam "labor_cost_multiplier" = Some lcm ->
  apply_labor_multiplier_to_project_data_dict ext lcm (heap st) = (Ok tt, h') ->
  exists st3,
    (forall B (K : M (@state Heap) B),
        (run! negative_input_check sam in
         run! override_loop sam (dict_keys sam) in
         run! update_labor_cost ext in K) st = K st3)
    /\ master_input_dict st3 !! "error" = Some (PDict (errors_after_scan sam d))
    /\ (forall k v, k <> "weather_file_path" -> dict_get sam k = Some v ->
                    master_input_dict st3 !! k = Some v).
Proof.
  intros He Hnoerr Hlcm Hcall.
  destruct (RunSpec.negative_input_check_run sam st d He)
    as (st1 & Hrun1 & He1 & Hh1 & Hc1 & Ho1).
  set (st2 := with_master (apply_overrides sam (dict_keys sam)) st1).
  assert (He2 : master_input_dict st2 !! "error"
                = Some (PDict (errors_after_scan sam d))).
  { simpl. rewrite RunSpec.apply_overrides_notin; [done|].
    by apply RunSpec.dict_get_None_keys. }
  assert (Hover : forall k v, k <> "weather_file_path" -> dict_get sam k = Some v ->
                              master_input_dict st2 !! k = Some v).
  { intros k v Hk Hv. simpl. apply RunSpec.apply_overrides_in; [|done..].
    by apply (RunSpec.dict_get_Some_key _ _ v). }
  assert (Hcall2 : apply_labor_multiplier_to_project_data_dict ext lcm (heap st2)
                   = (Ok tt, h')) by (simpl; by rewrite Hh1).
  assert (Hl2 : master_input_dict st2 !! "labor_cost_multiplier" = Some lcm)
    by (by apply Hover).
  exists (with_heap h' (log (CallApplyLaborMultiplier lcm) st2)).
  split; [|split; [exact He2|exact Hover]].
  intros B K.
  rewrite (RunSpec.bind_Ok _ _ _ _ _ Hrun1).
  rewrite (RunSpec.bind_Ok _ _ _ _ _
             (RunSpec.override_loop_run sam _ st1 (RunSpec.dict_keys_all_bound sam))).
  by rewrite (RunSpec.bind_Ok _ _ _ _ _
                (RunSpec.update_labor_cost_run ext st2 lcm h' Hl2 Hcall2)).
Qed.

(** X6: a caller's map without 'num_turbines' makes the stage raise
    KeyError('num_turbines'): the try of line 204 catches TurbineNumberError
    only, so nothing is recorded for it and the function is left. *)
Theorem missing_turbine_count_raises_KeyError sam st d lcm h' :
  master_input_dict st !! "error" = Some (PDict d) ->
  dict_get sam "error" = None ->
  dict_get sam "labor_cost_multiplier" = Some lcm ->
  apply_labor_multiplier_to_project_data_dict ext lcm (heap st) = (Ok tt, h') ->
  dict_get sam "num_turbines" = None ->
  fst (override_and_validate ext sam st) = Raise (KeyError "num_turbines").
Proof.
  intros He Hnoerr Hlcm Hcall Hn.
  destruct (validate_prefix_run sam st d lcm h' He Hnoerr Hlcm Hcall)
    as (st3 & Hrun & _).
  unfold override_and_validate. rewrite Hrun.
  unfold check_num_turbines, try_except, bind, sam_getitem. by rewrite Hn.
Qed.

(** X7: a 'num_turbines' that cannot be compared with 10 (a string, None,
    a list) makes the stage raise TypeError, unrecorded. *)
Theorem uncomparable_turbine_count_raises_TypeError sam st d lcm h' n :
  master_input_dict st !! "error" = Some (PDict d) ->
  dict_get sam "error" = None ->
  dict_get sam "labor_cost_multiplier" = Some lcm ->
  apply_labor_multiplier_to_project_data_dict ext lcm (heap st) = (Ok tt, h') ->
  dict_get sam "num_turbines" = Some n ->
  py_gt n 10 = Raise TypeError ->
  fst (override_and_validate ext sam st) = Raise TypeError.
Proof.
  intros He Hnoerr Hlcm Hcall Hn Hgt.
  destruct (validate_prefix_run sam st d lcm h' He Hnoerr Hlcm Hcall)
    as (st3 & Hrun & _).
  unfold override_and_validate. rewrite Hrun.
  unfold check_num_turbines, try_except, bind, sam_getitem, lift.
  rewrite Hn. unfold ret. by rewrite Hgt.
Qed.

(** X8: a caller's map without 'turbine_rating_MW' makes the stage raise
    KeyError('turbine_rating_MW') after the turbine-count check has run,
    whatever that check found. *)
Theorem missing_turbine_rating_raises_KeyError sam st d lcm h' n (above : bool) :
  master_input_dict st !! "error" = Some (PDict d) ->
  dict_get sam "error" = None ->
  dict_get sam "labor_cost_multiplier" = Some lcm ->
  apply_labor_multiplier_to_project_data_dict ext lcm (heap st) = (Ok tt, h') ->
  dict_get sam "num_turbines" = Some n -> py_gt n 10 = Ok above ->
  dict_get sam "turbine_rating_MW" = None ->
  fst (override_and_validate ext sam st) = Raise (KeyError "turbine_rating_MW").
Proof.
  intros He Hnoerr Hlcm Hcall Hn Hgt Hr.
  destruct (validate_prefix_run sam st d lcm h' He Hnoerr Hlcm Hcall)
    as (st3 & Hrun & He3 & _).
  unfold override_and_validate. rewrite Hrun.
  rewrite (RunSpec.bind_Ok _ _ _ _ _
             (RunSpec.check_num_turbines_run sam st3 _ n above He3 Hn Hgt)).
  unfold check_turbine_rating, try_except, bind, sam_getitem. by rewrite Hr.
Qed.

(** X9: when neither the caller's map nor the workbook's master map has
    'labor_cost_multiplier', the stage raises KeyError at line 200, before
    any collaborator is called and before either turbine check. *)
Theorem missing_labor_multiplier_raises_KeyError sam st d :
  master_input_dict st !! "error" = Some (PDict d) ->
  dict_get sam "labor_cost_multiplier" = None ->
  master_input_dict st !! "labor_cost_multiplier" = None ->
  fst (override_and_validate ext sam st) = Raise (KeyError "labor_cost_multiplier")
  /\ calls (snd (override_and_validate ext sam st)) = calls st.
Proof.
  intros He Hsam Hm.
  destruct (RunSpec.negative_input_check_run sam st d He)
    as (st1 & Hrun1 & He1 & Hh1 & Hc1 & Ho1).
  assert (Hm1 : master_input_dict st1 !! "labor_cost_multiplier" = None).
  { revert Hrun1. unfold negative_input_check.
    destruct (scan_for_negative sam).
    - rewrite (RunSpec.record_error_dict _ _ _ _ He). intros [= <-]. simpl.
      by rewrite lookup_insert_ne.
    - by intros [= <-]. }
  unfold override_and_validate.
  rewrite (RunSpec.bind_Ok _ _ _ _ _ Hrun1).
  rewrite (RunSpec.bind_Ok _ _ _ _ _
             (RunSpec.override_loop_run sam _ st1 (RunSpec.dict_keys_all_bound sam))).
  unfold bind at 1. unfold update_labor_cost, bind, getitem. simpl.
  rewrite RunSpec.apply_overrides_notin by (by apply RunSpec.dict_get_None_keys).
  rewrite Hm1. simpl. done.
Qed.





End Errors.

Lemma missing_turbine_count_raises_KeyError_witness :
  fst (override_and_validate Sample.ext
         [("labor_cost_multiplier", PInt 1); ("turbine_rating_MW", PFloat 1.5%float)]
         Sample.start)
  = Raise (KeyError "num_turbines").
Proof.
  apply (missing_turbine_count_raises_KeyError Sample.ext
           [("labor_cost_multiplier", PInt 1); ("turbine_rating_MW", PFloat 1.5%float)]
           Sample.start [] (PInt 1) tt); vm_compute; reflexivity.
Defined.

Lemma uncomparable_turbine_count_raises_TypeError_witness :
  fst (override_and_validate Sample.ext
         [("labor_cost_multiplier", PInt 1); ("num_turbines", PStr "100");
          ("turbine_rating_MW", PFloat 1.5%float)]
         Sample.start)
  = Raise TypeError.
Proof.
  apply (uncomparable_turbine_count_raises_TypeError Sample.ext
           [("labor_cost_multiplier", PInt 1); ("num_turbines", PStr "100");
            ("turbine_rating_MW", PFloat 1.5%float)]
           Sample.start [] (PInt 1) tt (PStr "100")); vm_compute; reflexivity.
Defined.

Lemma missing_turbine_rating_raises_KeyError_witness :
  fst (override_and_validate Sample.ext
         [("labor_cost_multiplier", PInt 1); ("num_turbines", PInt 5)] Sample.start)
  = Raise (KeyError "turbine_rating_MW").
Proof.
  apply (missing_turbine_rating_raises_KeyError Sample.ext
           [("labor_cost_multiplier", PInt 1); ("num_turbines", PInt 5)]
           Sample.start [] (PInt 1) tt (PInt 5) false); vm_compute; reflexivity.
Defined.

Lemma missing_labor_multiplier_raises_KeyError_witness :
  fst (override_and_validate Sample.ext [("num_turbines", PInt 100)]
         (initial_state ∅ tt))
  = Raise (KeyError "labor_cost_multiplier")
  /\ calls (snd (override_and_validate Sample.ext [("num_turbines", PInt 100)]
                   (initial_state ∅ tt)))
     = calls (initial_state (Heap := unit) ∅ tt).
Proof.
  apply (missing_labor_multiplier_raises_KeyError Sample.ext
           [("num_turbines", PInt 100)] (initial_state ∅ tt) []);
    vm_compute; reflexivity.
Defined.





End RunErrors.

(* ================================================================== *)
(** * The weather stage, outcome by outcome                             *)
(* ================================================================== *)

Module WeatherSpec.
Import Run.

(** Prepending a column of the right length and dropping the last one. *)
Lemma normalised_columns (times : list string) (df : list weather_row) :
  length times = length df ->
  let frame := map rename_and_select (combine times df) in
  length frame = length df
  /\ map (fun row : weather_window_row => let '(t, _, _, _, _) := row in t) frame = times
  /\ map (fun row : weather_window_row =>
            let '(_, c0, c1, c2, c3) := row in (c0, c1, c2, c3)) frame
     = map (fun row : weather_row =>
              let '(c0, c1, c2, c3, _) := row in (c0, c1, c2, c3)) df.
Proof.
  revert df. induction times as [|t times IH]; intros [|row df] Hlen;
    simpl in Hlen; try discriminate; [done|].
  injection Hlen as Hlen. destruct (IH df Hlen) as (H1 & H2 & H3).
  destruct row as [[[[c0 c1] c2] c3] c4]. simpl. simpl in H1, H2, H3.
  by rewrite H1, H2, H3.
Qed.

(** X14: a weather frame of 8760 rows is turned into a frame of 8760
    rows whose first column is the synthetic hourly time stamps, in order,
    and whose other four columns are the file's first four columns; the
    file's fifth column is dropped. *)
Theorem weather_frame_shape (df : list weather_row) :
  length df = 8760%nat ->
  exists with_time,
    insert_time df Dates.default_date_time = Ok with_time
    /\ let frame := map rename_and_select with_time in
       length frame = 8760%nat
       /\ map (fun row : weather_window_row => let '(t, _, _, _, _) := row in t) frame
          = Dates.default_date_time
       /\ map (fun row : weather_window_row =>
                 let '(_, c0, c1, c2, c3) := row in (c0, c1, c2, c3)) frame
          = map (fun row : weather_row =>
                   let '(c0, c1, c2, c3, _) := row in (c0, c1, c2, c3)) df.
Proof.
  intros Hlen. exists (combine Dates.default_date_time df).
  pose proof DatesSpec.default_date_time_length as Ht.
  split.
  - unfold insert_time. rewrite Ht, Hlen. reflexivity.
  - destruct (normalised_columns Dates.default_date_time df) as (H1 & H2 & H3);
      [congruence|].
    cbv zeta. rewrite H1, H2, H3. split; [exact Hlen|]. split; reflexivity.
Qed.

Section Weather.
Context {Heap : Type} (ext : @collaborators Heap).
Implicit Types (st : @state Heap) (sam : odict).

(** The one read of lines 241-245. *)
Lemma weather_read_run sam st r h1 :
  read_csv ext (weather_path ext sam) (heap st) = (r, h1) ->
  (if dict_mem sam "weather_file_path"
   then let! p := sam_getitem sam "weather_file_path" in read_weather_data ext p
   else read_weather_data ext
          (PStr (input_output_path ext ++ "/project_data/az_rolling.srw"))) st
  = (r, with_heap h1 (log (CallReadWeatherData (weather_path ext sam)) st)).
Proof.
  unfold dict_mem, weather_path, sam_getitem.
  destruct (dict_get sam "weather_file_path") as [p|]; intros Hread.
  - unfold bind, ret, read_weather_data, call. simpl. by rewrite Hread.
  - unfold read_weather_data, call. simpl. by rewrite Hread.
Qed.

Lemma record_error_calls kind value st :
  calls (snd (record_error kind value st)) = calls st.
Proof.
  unfold record_error, bind, getitem.
  destruct (master_input_dict st !! "error") as [slot|]; [|done].
  by destruct slot.
Qed.

(** X15: with a readable file of 8760 rows and a [read_weather_window]
    that returns, the stage stores the window under 'weather_window',
    leaves the error map alone, and has made two calls: the read of the
    chosen file, then [read_weather_window] on the normalised frame. *)
Theorem weather_window_is_stored sam st df h1 window h2 :
  read_csv ext (weather_path ext sam) (heap st) = (Ok df, h1) ->
  length df = 8760%nat ->
  read_weather_window ext
    (map rename_and_select (combine Dates.default_date_time df)) h1 = (Ok window, h2) ->
  exists st',
    weather_stage ext sam st = (Ok tt, st')
    /\ master_input_dict st' !! "weather_window" = Some window
    /\ master_input_dict st' !! "error" = master_input_dict st !! "error"
    /\ heap st' = h2
    /\ calls st'
       = (calls st ++ [CallReadWeatherData (weather_path ext sam);
                       CallReadWeatherWindow])%list.
Proof.
  intros Hread Hlen Hwin.
  eexists. split.
  - unfold weather_stage, try_except, weather_try_body. unfold bind at 1.
    rewrite (weather_read_run sam st _ _ Hread).
    unfold bind, lift, insert_time.
    rewrite DatesSpec.default_date_time_length, Hlen, Nat.eqb_refl.
    unfold call. cbn [heap with_heap log]. rewrite Hwin. reflexivity.
  - simpl. rewrite lookup_insert_eq, lookup_insert_ne by done.
    rewrite <- app_assoc. done.
Qed.


(** X17: an exception that is not a subclass of Exception (a keyboard
    interrupt, SystemExit) raised while the file is read is not caught:
    the stage raises it, nothing is recorded, and the run ends there. *)
Theorem base_exception_leaves_the_run sam st e h1 :
  read_csv ext (weather_path ext sam) (heap st) = (Raise e, h1) ->
  is_Exception e = false ->
  fst (weather_stage ext sam st) = Raise e
  /\ master_input_dict (snd (weather_stage ext sam st)) = master_input_dict st
  /\ fst ((run! weather_stage ext sam in after_weather ext) st) = Raise e
  /\ calls (snd ((run! weather_stage ext sam in after_weather ext) st))
     = (calls st ++ [CallReadWeatherData (weather_path ext sam)])%list.
Proof.
  intros Hread Hexc.
  assert (Hstage : weather_stage ext sam st
                   = (Raise e, with_heap h1
                                 (log (CallReadWeatherData (weather_path ext sam)) st))).
  { unfold weather_stage, try_except, weather_try_body. unfold bind at 1.
    rewrite (weather_read_run sam st _ _ Hread). by rewrite Hexc. }
  rewrite (RunSpec.bind_Raise _ _ _ _ _ Hstage). by rewrite Hstage.
Qed.

(** X18: whatever happens, the stage reads exactly one weather file, the
    caller's when the caller's map has 'weather_file_path' and the packaged
    one otherwise, and makes at most one further call, to
    [read_weather_window]. *)
Theorem weather_stage_reads_one_file sam st :
  exists rest,
    calls (snd (weather_stage ext sam st))
    = (calls st ++ CallReadWeatherData (weather_path ext sam) :: rest)%list
    /\ (rest = [] \/ rest = [CallReadWeatherWindow]).
Proof.
  destruct (read_csv ext (weather_path ext sam) (heap st)) as [r h1] eqn:Hread.
  unfold weather_stage, try_except, weather_try_body. unfold bind at 1.
  rewrite (weather_read_run sam st _ _ Hread).
  destruct r as [df|e].
  - unfold bind, lift. destruct (insert_time df _) as [wt|e].
    + unfold call. simpl.
      destruct (read_weather_window ext _ h1) as [[w|e] h2]; simpl.
      * exists [CallReadWeatherWindow]. rewrite <- app_assoc. by split; [|right].
      * exists [CallReadWeatherWindow]. split; [|by right].
        destruct (is_Exception e); [rewrite record_error_calls|];
          simpl; by rewrite <- app_assoc.
    + exists []. split; [|by left].
      destruct (is_Exception e); [rewrite record_error_calls|]; done.
  - exists []. split; [|by left].
    destruct (is_Exception e); [rewrite record_error_calls|]; done.
Qed.

End Weather.

Lemma weather_frame_shape_witness :
  exists with_time,
    insert_time (repeat Sample.hourly_row 8760) Dates.default_date_time = Ok with_time
    /\ let frame := map rename_and_select with_time in
       length frame = 8760%nat
       /\ map (fun row : weather_window_row => let '(t, _, _, _, _) := row in t) frame
          = Dates.default_date_time
       /\ map (fun row : weather_window_row =>
                 let '(_, c0, c1, c2, c3) := row in (c0, c1, c2, c3)) frame
          = map (fun row : weather_row =>
                   let '(c0, c1, c2, c3, _) := row in (c0, c1, c2, c3))
              (repeat Sample.hourly_row 8760).
Proof.
  apply (weather_frame_shape (repeat Sample.hourly_row 8760)).
  vm_compute. reflexivity.
Defined.

Lemma weather_window_is_stored_witness :
  exists st',
    weather_stage Sample.ext Sample.sam_defaults Sample.start = (Ok tt, st')
    /\ master_input_dict st' !! "weather_window" = Some (PObj 1%N)
    /\ master_input_dict st' !! "error" = master_input_dict Sample.start !! "error"
    /\ heap st' = tt
    /\ calls st'
       = (calls Sample.start
          ++ [CallReadWeatherData (weather_path Sample.ext Sample.sam_defaults);
              CallReadWeatherWindow])%list.
Proof.
  apply (weather_window_is_stored Sample.ext Sample.sam_defaults Sample.start
           (repeat Sample.hourly_row 8760) tt (PObj 1%N) tt);
    vm_compute; reflexivity.
Defined.


Lemma base_exception_leaves_the_run_witness :
  fst (weather_stage Sample.ext_interrupted Sample.sam_defaults Sample.start)
  = Raise (BaseOnly "KeyboardInterrupt")
  /\ master_input_dict
       (snd (weather_stage Sample.ext_interrupted Sample.sam_defaults Sample.start))
     = master_input_dict Sample.start
  /\ fst ((run! weather_stage Sample.ext_interrupted Sample.sam_defaults
           in after_weather Sample.ext_interrupted) Sample.start)
     = Raise (BaseOnly "KeyboardInterrupt")
  /\ calls (snd ((run! weather_stage Sample.ext_interrupted Sample.sam_defaults
                  in after_weather Sample.ext_interrupted) Sample.start))
     = (calls Sample.start
        ++ [CallReadWeatherData
              (weather_path Sample.ext_interrupted Sample.sam_defaults)])%list.
Proof.
  apply (base_exception_leaves_the_run Sample.ext_interrupted Sample.sam_defaults
           Sample.start (BaseOnly "KeyboardInterrupt") tt); reflexivity.
Defined.

End WeatherSpec.

(* ================================================================== *)
(** * The result record: the error report and the lookups               *)
(* ================================================================== *)

Module ResultSpec.
Import Run.

Section Results.
Context {Heap : Type} (ext : @collaborators Heap).

Lemma copy_fields_Ok_inv (out : gmap string pyval) fields (r0 r : gmap string pyval) :
  copy_fields out fields r0 = Ok r ->
  Forall (fun f => is_Some (out !! snd f)) fields.
Proof.
  revert r0. induction fields as [|[rk ok] fields IH]; intros r0 Hrun; [done|].
  simpl in Hrun. destruct (out !! ok) as [v|] eqn:Hv; [|done].
  constructor; [simpl; eauto|]. by apply (IH _ Hrun).
Qed.

Lemma copy_fields_Raise_inv (out : gmap string pyval) fields (r0 : gmap string pyval) e :
  copy_fields out fields r0 = Raise e ->
  exists k, e = KeyError k /\ In k (map snd fields) /\ out !! k = None.
Proof.
  revert r0. induction fields as [|[rk ok] fields IH]; intros r0 Hrun; [done|].
  simpl in Hrun. destruct (out !! ok) as [v|] eqn:Hv.
  - destruct (IH _ Hrun) as (k & -> & Hin & Hk). exists k. simpl. eauto.
  - injection Hrun as <-. exists ok. simpl. eauto.
Qed.

Lemma error_messages_nth (d : odict) i key value :
  nth_error d i = Some (key, value) ->
  nth_error (error_messages ext d) i
  = Some (PStr ("Error in " ++ key ++ ": " ++ py_str ext value)).
Proof. intros H. unfold error_messages. by rewrite nth_error_map, H. Qed.

(** X19: with a non-empty error map the function returns a record whose
    only key is 'errors': one message "Error in <kind>: <message>" per
    entry, in the map's insertion order, and no cost field. The output map
    is not read: any other output map gives the same record. *)
Theorem error_report_has_only_errors (m out : gmap string pyval) (d : odict) :
  m !! "error" = Some (PDict d) -> d <> [] ->
  exists results,
    project_results ext m out = Ok results
    /\ results !! "errors" = Some (PList (error_messages ext d))
    /\ (forall k, k <> "errors" -> results !! k = None)
    /\ length (error_messages ext d) = length d
    /\ (forall i key value,
          nth_error d i = Some (key, value) ->
          nth_error (error_messages ext d) i
          = Some (PStr ("Error in " ++ key ++ ": " ++ py_str ext value)))
    /\ (forall out', project_results ext m out' = Ok results).
Proof.
  intros He Hd.
  assert (Hrun : forall o, project_results ext m o
                           = Ok (<["errors" := PList (error_messages ext d)]>
                                   (<["errors" := PList []]> ∅))).
  { intros o. unfold project_results. rewrite He. simpl. by destruct d. }
  eexists. split; [apply Hrun|].
  split; [by rewrite lookup_insert_eq|].
  split; [intros k Hk; by rewrite !lookup_insert_ne, lookup_empty|].
  split; [unfold error_messages; apply length_map|].
  split; [apply error_messages_nth|exact Hrun].
Qed.

(** X20: in the success branch the record is returned only if the output
    map has every key the branch reads, and the master map has
    'development_labor_cost_usd' whenever the output map has
    'Development labor cost USD'. *)
Theorem success_requires_every_output_key (m out : gmap string pyval) errors results :
  m !! "error" = Some errors -> py_truth ext errors = Ok false ->
  project_results ext m out = Ok results ->
  Forall (fun f => is_Some (out !! snd f))
    (fields_up_to_development ++ fields_after_development)
  /\ (is_Some (out !! "Development labor cost USD") ->
      is_Some (m !! "development_labor_cost_usd")).
Proof.
  intros He Htruth. unfold project_results. rewrite He, Htruth. unfold cost_record.
  destruct (copy_fields out fields_up_to_development _) as [r1|e1] eqn:H1; [|done].
  destruct (development_fields m out r1) as [r2|e2] eqn:H2; [|done].
  intros H3. split.
  - apply Forall_app. split.
    + by apply (copy_fields_Ok_inv _ _ _ _ H1).
    + by apply (copy_fields_Ok_inv _ _ _ _ H3).
  - intros Hin. unfold development_fields in H2. rewrite decide_True in H2 by done.
    destruct (m !! "development_labor_cost_usd"); [eauto|done].
Qed.

(** X21: in the success branch the only failure is a KeyError, and it
    names a key that is really missing: an output key the branch reads, or
    'development_labor_cost_usd' of the master map. *)
Theorem success_branch_fails_by_KeyError_only (m out : gmap string pyval) errors e :
  m !! "error" = Some errors -> py_truth ext errors = Ok false ->
  project_results ext m out = Raise e ->
  exists k,
    e = KeyError k
    /\ ((In k (map snd (fields_up_to_development ++ fields_after_development))
         /\ out !! k = None)
        \/ (k = "development_labor_cost_usd" /\ m !! k = None
            /\ is_Some (out !! "Development labor cost USD"))).
Proof.
  intros He Htruth. unfold project_results. rewrite He, Htruth. unfold cost_record.
  destruct (copy_fields out fields_up_to_development _) as [r1|e1] eqn:H1.
  - destruct (development_fields m out r1) as [r2|e2] eqn:H2.
    + intros H3. destruct (copy_fields_Raise_inv _ _ _ _ H3) as (k & -> & Hin & Hk).
      exists k. split; [done|]. left. split; [|done].
      rewrite map_app. apply in_or_app. by right.
    + intros [= <-]. unfold development_fields in H2. case_decide as Hin; [|done].
      destruct (m !! "development_labor_cost_usd") eqn:Hm; [done|].
      injection H2 as <-. exists "development_labor_cost_usd". split; [done|].
      right. done.
  - intros [= <-]. destruct (copy_fields_Raise_inv _ _ _ _ H1) as (k & -> & Hin & Hk).
    exists k. split; [done|]. left. split; [|done].
    rewrite map_app. apply in_or_app. by left.
Qed.

End Results.

Lemma error_report_has_only_errors_witness :
  exists results,
    project_results Sample.ext
      (<["error" := PDict [("TurbineNumberError", PStr turbine_number_message)]]>
         Sample.workbook_master)
      Sample.full_output = Ok results
    /\ results !! "errors"
       = Some (PList (error_messages Sample.ext
                        [("TurbineNumberError", PStr turbine_number_message)]))
    /\ (forall k, k <> "errors" -> results !! k = None)
    /\ length (error_messages Sample.ext
                 [("TurbineNumberError", PStr turbine_number_message)])
       = length [("TurbineNumberError", PStr turbine_number_message)]
    /\ (forall i key value,
          nth_error [("TurbineNumberError", PStr turbine_number_message)] i
          = Some (key, value) ->
          nth_error (error_messages Sample.ext
                       [("TurbineNumberError", PStr turbine_number_message)]) i
          = Some (PStr ("Error in " ++ key ++ ": " ++ py_str Sample.ext value)))
    /\ (forall out',
          project_results Sample.ext
            (<["error" := PDict [("TurbineNumberError", PStr turbine_number_message)]]>
               Sample.workbook_master) out' = Ok results).
Proof.
  apply (error_report_has_only_errors Sample.ext
           (<["error" := PDict [("TurbineNumberError", PStr turbine_number_message)]]>
              Sample.workbook_master)
           Sample.full_output [("TurbineNumberError", PStr turbine_number_message)]).
  - vm_compute. reflexivity.
  - discriminate.
Defined.

Lemma success_requires_every_output_key_witness :
  Forall (fun f => is_Some (Sample.full_output !! snd f))
    (fields_up_to_development ++ fields_after_development)
  /\ (is_Some (Sample.full_output !! "Development labor cost USD") ->
      is_Some ((<["error" := PDict []]> Sample.workbook_master)
                 !! "development_labor_cost_usd")).
Proof.
  apply (success_requires_every_output_key Sample.ext
           (<["error" := PDict []]> Sample.workbook_master) Sample.full_output
           (PDict [])
           (match project_results Sample.ext
                    (<["error" := PDict []]> Sample.workbook_master)
                    Sample.full_output with
            | Ok results => results
            | Raise _ => ∅
            end)); vm_compute; reflexivity.
Defined.

(** An output map without the erection costs. *)
Lemma success_branch_fails_by_KeyError_only_witness :
  exists k,
    KeyError "total_cost_summed_erection" = KeyError k
    /\ ((In k (map snd (fields_up_to_development ++ fields_after_development))
         /\ delete "total_cost_summed_erection" Sample.full_output !! k = None)
        \/ (k = "development_labor_cost_usd"
            /\ (<["error" := PDict []]> Sample.workbook_master) !! k = None
            /\ is_Some (delete "total_cost_summed_erection" Sample.full_output
                          !! "Development labor cost USD"))).
Proof.
  apply (success_branch_fails_by_KeyError_only Sample.ext
           (<["error" := PDict []]> Sample.workbook_master)
           (delete "total_cost_summed_erection" Sample.full_output)
           (PDict []) (KeyError "total_cost_summed_erection"));
    vm_compute; reflexivity.
Defined.

End ResultSpec.

(* ================================================================== *)
(** * [daterange], element by element                                   *)
(* ================================================================== *)

Module DaterangeSpec.
Import Dates.

#[local] Open Scope Z_scope.



End DaterangeSpec.

(* ================================================================== *)
(** * More on the LCOE script                                           *)
(* ================================================================== *)

Module LcoeMore.
Import Lcoe.

#[local] Open Scope float_scope.

Section Brancher.
Context {K : Type}.
Implicit Types (df : list (line_item K)) (row : line_item K).

Lemma modified_row_keeps_columns module_alias (r : labelled_item K) :
  other_columns (item (modified_row module_alias r)) = other_columns (item r)
  /\ Module_ (item (modified_row module_alias r)) = Module_ (item r).
Proof. unfold modified_row. simpl. by destruct (String.eqb _ _). Qed.

(** X23: branching changes nothing but costs and labels: read through
    every column other than 'Cost per project' and 'Modifications', the
    result is the input table three times over, in the input's order. *)
Theorem branching_keeps_the_other_columns df :
  map (fun r => (other_columns (item r), Module_ (item r)))
    (preprocess_bos_module_cost df)
  = let columns := map (fun row => (other_columns row, Module_ row)) df in
    (columns ++ columns ++ columns)%list.
Proof.
  rewrite LcoeSpec.preprocess_blocks, !map_app.
  assert (Hconv : map (fun r => (other_columns (item r), Module_ (item r)))
                    (conventional df)
                  = map (fun row => (other_columns row, Module_ row)) df).
  { unfold conventional. rewrite map_map. by apply map_ext. }
  assert (Hmod : forall module_alias,
            map (fun r => (other_columns (item r), Module_ (item r)))
              (map (modified_row module_alias) (conventional df))
            = map (fun row => (other_columns row, Module_ row)) df).
  { intros module_alias. rewrite <- Hconv, map_map. apply map_ext. intros r.
    by destruct (modified_row_keeps_columns module_alias r) as [-> ->]. }
  by rewrite Hconv, !Hmod.
Qed.

(** X24: the two scenarios never overlap: of the two modified copies of
    an input row, found n and 2 n places after it, at least one is the
    input row itself, and each is the row or the row with its cost halved. *)
Theorem no_row_is_halved_in_both_scenarios df i row :
  nth_error df i = Some row ->
  exists e f,
    nth_error (preprocess_bos_module_cost df) (length df + i) = Some e
    /\ nth_error (preprocess_bos_module_cost df) (2 * length df + i) = Some f
    /\ Modifications e = "Erection 50%" /\ Modifications f = "Foundation 50%"
    /\ (item e = row \/ item f = row)
    /\ (item e = row \/ item e = halved row)
    /\ (item f = row \/ item f = halved row).
Proof.
  intros Hrow.
  assert (Hi : (i < length df)%nat) by (apply nth_error_Some; congruence).
  pose proof (LcoeSpec.conventional_length df) as Hlen.
  rewrite LcoeSpec.preprocess_blocks. eexists _, _. split; [|split].
  - rewrite nth_error_app2 by (rewrite Hlen; lia).
    rewrite nth_error_app1 by (rewrite length_map, Hlen; lia).
    replace (length df + i - length (conventional df))%nat with i by (rewrite Hlen; lia).
    by apply LcoeSpec.nth_error_modified.
  - rewrite nth_error_app2 by (rewrite Hlen; lia).
    rewrite nth_error_app2 by (rewrite length_map, Hlen; lia).
    replace (2 * length df + i - length (conventional df)
             - length (map (modified_row "Erection") (conventional df)))%nat with i
      by (rewrite length_map, Hlen; lia).
    by apply LcoeSpec.nth_error_modified.
  - cbn [item Modifications].
    change ("Erection" ++ "Cost")%string with "ErectionCost".
    change ("Foundation" ++ "Cost")%string with "FoundationCost".
    destruct (String.eqb (Module_ row) "ErectionCost") eqn:E1;
      destruct (String.eqb (Module_ row) "FoundationCost") eqn:E2.
    + apply String.eqb_eq in E1, E2. rewrite E1 in E2. discriminate.
    + repeat split; auto.
    + repeat split; auto.
    + repeat split; auto.
Qed.

End Brancher.

Lemma no_row_is_halved_in_both_scenarios_witness :
  exists e f,
    nth_error (preprocess_bos_module_cost Sample.bos_1500kW)
      (length Sample.bos_1500kW + 1) = Some e
    /\ nth_error (preprocess_bos_module_cost Sample.bos_1500kW)
         (2 * length Sample.bos_1500kW + 1) = Some f
    /\ Modifications e = "Erection 50%" /\ Modifications f = "Foundation 50%"
    /\ (item e = Sample.cost_line "FoundationCost" 6000000
        \/ item f = Sample.cost_line "FoundationCost" 6000000)
    /\ (item e = Sample.cost_line "FoundationCost" 6000000
        \/ item e = halved (Sample.cost_line "FoundationCost" 6000000))
    /\ (item f = Sample.cost_line "FoundationCost" 6000000
        \/ item f = halved (Sample.cost_line "FoundationCost" 6000000)).
Proof.
  apply (no_row_is_halved_in_both_scenarios Sample.bos_1500kW 1
           (Sample.cost_line "FoundationCost" 6000000)).
  reflexivity.
Defined.

(** ** The joins *)

Lemma in_merge {A B} (on : A -> B -> bool) (left : list A) (right : list B) l r :
  In (l, r) (merge on left right) <-> In l left /\ In r right /\ on l r = true.
Proof.
  unfold merge. rewrite in_flat_map. split.
  - intros (l0 & Hl0 & Hin). apply in_map_iff in Hin.
    destruct Hin as (r0 & [= -> ->] & Hr0).
    apply list_elem_of_In, list_elem_of_filter in Hr0. destruct Hr0 as [Hon Hr].
    split; [done|]. split; [by apply list_elem_of_In|]. by apply Is_true_true.
  - intros (Hl & Hr & Hon). exists l. split; [done|].
    apply in_map_iff. exists r. split; [done|].
    apply list_elem_of_In, list_elem_of_filter. split; [by apply Is_true_true|].
    by apply list_elem_of_In.
Qed.

Lemma joined_add_lcoe_columns l : map joined (map add_lcoe_columns l) = l.
Proof. induction l as [|j l IH]; [done|]. cbn [map]. by rewrite IH. Qed.

Lemma main_Ok_inv aep tcc bos rows :
  main aep tcc bos = Ok rows ->
  rows = map add_lcoe_columns
           (merge lcoe_on (merge aep_tcc_on aep tcc)
              (groupby_sum (preprocess_bos_module_cost bos))).
Proof.
  unfold main. destruct (Nat.eqb _ 0); [done|]. destruct (Nat.eqb _ 0); [done|].
  intros H. by injection H as <-.
Qed.

(** X25: the rows [main] returns are exactly the matching triples: an
    AEP row, a TCC row with the same rating, rotor diameter and hub height,
    and a grouped BOS row with the same rating and hub height. A row of any
    table without partners in the others leaves no trace, and the rotor
    diameter of the BOS row plays no part in the second join. *)
Theorem lcoe_rows_are_the_matching_triples aep tcc bos rows :
  main aep tcc bos = Ok rows ->
  forall a t b,
    In (a, t, b) (map joined rows)
    <-> In a aep /\ In t tcc
        /\ In b (groupby_sum (preprocess_bos_module_cost bos))
        /\ key_eq (aep_Rating_kW a) (tcc_Rating_kW t) = true
        /\ key_eq (aep_Rotor_Diam_m a) (tcc_Rotor_Diam_m t) = true
        /\ key_eq (aep_Hub_height_m a) (tcc_Hub_height_m t) = true
        /\ key_eq (aep_Rating_kW a) (Rating_kW b) = true
        /\ key_eq (aep_Hub_height_m a) (Hub_height b) = true.
Proof.
  intros Hrun a t b. rewrite (main_Ok_inv _ _ _ _ Hrun), joined_add_lcoe_columns.
  rewrite !in_merge. unfold aep_tcc_on, lcoe_on. cbn [fst snd].
  rewrite !andb_true_iff. tauto.
Qed.

(** The conventional row of the 1.5 MW sample. *)
Lemma lcoe_rows_are_the_matching_triples_witness :
  let rows :=
    match main Sample.aep_1500kW Sample.tcc_1500kW Sample.bos_1500kW with
    | Ok rows => rows
    | Raise _ => []
    end in
  let a := {| aep_Rating_kW := 1500; aep_Rotor_Diam_m := 77;
              aep_Hub_height_m := 80; AEP_kWh_yr := 5000000 |} in
  let t := {| tcc_Rating_kW := 1500; tcc_Rotor_Diam_m := 77;
              tcc_Hub_height_m := 80; TCC_USD_kW := 1000 |} in
  let b := {| Rating_kW := 1500; Rotor_Diam_m := 77; bs_Number_of_turbines := 100;
              Hub_height := 80; bs_Labor_cost_multiplier := 1;
              bs_Crane_breakdown_fraction := 0; bs_Modifications := "Conventional";
              BOS_Capex_USD := 12000000 |} in
  In (a, t, b) (map joined rows)
  <-> In a Sample.aep_1500kW /\ In t Sample.tcc_1500kW
      /\ In b (groupby_sum (preprocess_bos_module_cost Sample.bos_1500kW))
      /\ key_eq (aep_Rating_kW a) (tcc_Rating_kW t) = true
      /\ key_eq (aep_Rotor_Diam_m a) (tcc_Rotor_Diam_m t) = true
      /\ key_eq (aep_Hub_height_m a) (tcc_Hub_height_m t) = true
      /\ key_eq (aep_Rating_kW a) (Rating_kW b) = true
      /\ key_eq (aep_Hub_height_m a) (Hub_height b) = true.
Proof.
  intros rows a t b.
  apply (lcoe_rows_are_the_matching_triples
           Sample.aep_1500kW Sample.tcc_1500kW Sample.bos_1500kW rows).
  vm_compute. reflexivity.
Defined.

(** ** The grouped BOS table *)

Lemma missing_key_by_columns (r r' : labelled_item bos_columns) c c' :
  other_columns (item r) = other_columns (item r') ->
  has_missing_key (to_bos_sum_row r c) = has_missing_key (to_bos_sum_row r' c').
Proof. unfold has_missing_key, numeric_keys, to_bos_sum_row. simpl. by intros ->. Qed.

Lemma preprocess_all_missing_iff (bos : list bos_row) :
  Forall (fun r => has_missing_key (to_bos_sum_row r (Cost_per_project (item r))) = true)
    (preprocess_bos_module_cost bos)
  <-> Forall (fun row =>
                has_missing_key
                  (to_bos_sum_row {| item := row; Modifications := "Conventional" |}
                     (Cost_per_project row)) = true) bos.
Proof.
  rewrite LcoeSpec.preprocess_blocks. unfold conventional.
  rewrite !Forall_app, !map_map, !Forall_map. simpl.
  assert (Hsame : forall module_alias,
            Forall (fun row =>
                      has_missing_key
                        (to_bos_sum_row
                           (modified_row module_alias
                              {| item := row; Modifications := "Conventional" |})
                           (Cost_per_project
                              (item (modified_row module_alias
                                       {| item := row;
                                          Modifications := "Conventional" |})))) = true)
              bos
            <-> Forall (fun row =>
                          has_missing_key
                            (to_bos_sum_row
                               {| item := row; Modifications := "Conventional" |}
                               (Cost_per_project row)) = true) bos).
  { intros module_alias. apply Forall_iff. intros row.
    erewrite missing_key_by_columns; [reflexivity|].
    apply modified_row_keeps_columns. }
  rewrite !Hsame. tauto.
Qed.

(** X26: [main] stops with 'bos_sum is empty.' exactly when the first
    join has a row and every BOS row, if there is any, has a missing value
    in one of its six numeric key columns; an empty BOS table is the
    simplest case. *)
Theorem bos_sum_guard_fires_iff_no_complete_row aep tcc (bos : list bos_row) :
  main aep tcc bos = Raise (OtherException "bos_sum is empty.")
  <-> merge aep_tcc_on aep tcc <> []
      /\ Forall (fun row =>
                   has_missing_key
                     (to_bos_sum_row {| item := row; Modifications := "Conventional" |}
                        (Cost_per_project row)) = true) bos.
Proof.
  rewrite <- preprocess_all_missing_iff, <- LcoeSpec.groupby_sum_nil_iff.
  rewrite LcoeSpec.main_unfold.
  destruct (merge aep_tcc_on aep tcc) as [|p aep_tcc].
  - split; [done|]. by intros [? _].
  - destruct (groupby_sum _) as [|g bos_sum].
    + split; done.
    + split; [done|]. by intros [_ ?].
Qed.

Lemma add_to_groups_keys r groups g :
  In g (add_to_groups r groups) ->
  (numeric_keys g = numeric_keys r /\ bs_Modifications g = bs_Modifications r)
  \/ exists g0, In g0 groups /\ numeric_keys g = numeric_keys g0
                /\ bs_Modifications g = bs_Modifications g0.
Proof.
  induction groups as [|g1 groups IH]; simpl.
  - intros [<-|[]]. by left.
  - destruct (compare_keys r g1).
    + intros [<-|Hin].
      * right. exists g1. split; [by left|done].
      * right. exists g. split; [by right|done].
    + intros [<-|[<-|Hin]].
      * by left.
      * right. exists g1. split; [by left|done].
      * right. exists g. split; [by right|done].
    + intros [<-|Hin].
      * right. exists g1. split; [by left|done].
      * destruct (IH Hin) as [Hr|(g0 & Hg0 & Hk)]; [by left|].
        right. exists g0. split; [by right|done].
Qed.

Lemma add_to_groups_length r groups :
  (length (add_to_groups r groups) <= S (length groups))%nat.
Proof.
  induction groups as [|g1 groups IH]; simpl; [lia|].
  destruct (compare_keys r g1); simpl; lia.
Qed.

(** X27: every row of the grouped table carries the six numeric keys and
    the label of some input row whose keys are all present, and there are
    never more groups than input rows: grouping invents no key and copies
    no row. *)
Theorem groups_come_from_complete_rows (bos : list (labelled_item bos_columns)) :
  (length (groupby_sum bos) <= length bos)%nat
  /\ forall g,
       In g (groupby_sum bos) ->
       exists row,
         In row bos
         /\ has_missing_key (to_bos_sum_row row (Cost_per_project (item row))) = false
         /\ numeric_keys g
            = numeric_keys (to_bos_sum_row row (Cost_per_project (item row)))
         /\ bs_Modifications g = Modifications row.
Proof.
  unfold groupby_sum.
  set (step := fun groups row =>
                 let r := to_bos_sum_row row (Cost_per_project (item row)) in
                 if has_missing_key r then groups else add_to_groups r groups).
  set (from := fun (rows : list (labelled_item bos_columns)) g =>
                 exists row,
                   In row rows
                   /\ has_missing_key
                        (to_bos_sum_row row (Cost_per_project (item row))) = false
                   /\ numeric_keys g
                      = numeric_keys (to_bos_sum_row row (Cost_per_project (item row)))
                   /\ bs_Modifications g = Modifications row).
  assert (Hgen : forall rows seen acc,
            (length acc <= length seen)%nat ->
            (forall g, In g acc -> from seen g) ->
            (length (fold_left step rows acc) <= length (seen ++ rows))%nat
            /\ forall g, In g (fold_left step rows acc) -> from (seen ++ rows)%list g).
  { induction rows as [|row rows IH]; intros seen acc Hlen Hacc.
    - simpl. rewrite app_nil_r. by split.
    - simpl. replace (seen ++ row :: rows)%list with ((seen ++ [row]) ++ rows)%list
        by (by rewrite <- app_assoc).
      apply IH.
      + rewrite length_app. simpl. unfold step.
        destruct (has_missing_key _); [lia|].
        pose proof (add_to_groups_length
                      (to_bos_sum_row row (Cost_per_project (item row))) acc). lia.
      + intros g Hg. unfold step in Hg. cbv zeta in Hg.
        destruct (has_missing_key _) eqn:Hmiss.
        * destruct (Hacc g Hg) as (row0 & Hin & Hrest).
          exists row0. split; [apply in_or_app; by left|done].
        * apply add_to_groups_keys in Hg.
          destruct Hg as [[Hk Hl]|(g0 & Hg0 & Hk & Hl)].
          -- exists row. split; [apply in_or_app; right; by left|].
             split; [done|]. split; [done|]. by rewrite Hl.
          -- destruct (Hacc g0 Hg0) as (row0 & Hin & Hm & Hk0 & Hl0).
             exists row0. split; [apply in_or_app; by left|].
             split; [done|]. split; congruence. }
  destruct (Hgen bos [] []) as [Hlen Hfrom]; [done|by intros g []|].
  simpl in Hlen, Hfrom. done.
Qed.

(** X28: an AEP table or a TCC table without rows stops [main] with
    'aep_tcc merge is empty', whatever the BOS table holds: the first guard
    is the one that speaks when both joins are empty. *)
Theorem empty_aep_or_tcc_raises_first aep tcc (bos : list bos_row) :
  main [] tcc bos = Raise (OtherException "aep_tcc merge is empty")
  /\ main aep [] bos = Raise (OtherException "aep_tcc merge is empty").
Proof.
  split.
  - by rewrite LcoeSpec.main_unfold.
  - rewrite LcoeSpec.main_unfold. by rewrite LcoeSpec.merge_nil_r.
Qed.

End LcoeMore.

(* ================================================================== *)
(** * [read_data]: which sheets are read                                *)
(* ================================================================== *)

Module ReadDataSpec.
Import ReadData.

Section Sheets.
Context {Heap : Type} (rd : @reader Heap).

Lemma dict_mem_get (d : odict) k : dict_mem d k = true <-> is_Some (dict_get d k).
Proof.
  unfold dict_mem. destruct (dict_get d k); split; try done; eauto.
Qed.

(** X29: sheet selection fails exactly when the workbook does not have
    exactly one sheet and lacks 'Project list' or 'Parametric list'; then
    [read_data] raises the KeyError of line 399 right after the workbook is
    loaded, without calling either [XlsxReader] method. An empty workbook
    is such a case. *)
Theorem sheet_selection_fails_iff (sheets : odict) h h1 :
  read_all_sheets_from_xlsx rd h = (Ok sheets, h1) ->
  (is_Ok (select_sheets rd sheets) = false
   <-> length sheets <> 1%nat
       /\ (dict_mem sheets "Parametric list" = false
           \/ dict_mem sheets "Project list" = false))
  /\ (is_Ok (select_sheets rd sheets) = false ->
      read_data rd h = (Raise (KeyError sheet_error_message), h1)).
Proof.
  intros Hload.
  assert (Hsel : select_sheets rd sheets = Raise (KeyError sheet_error_message)
                 \/ (is_Ok (select_sheets rd sheets) = true
                     /\ (length sheets = 1%nat
                         \/ (dict_mem sheets "Parametric list" = true
                             /\ dict_mem sheets "Project list" = true)))).
  { unfold select_sheets. destruct (Nat.eqb (length sheets) 1) eqn:E.
    - apply Nat.eqb_eq in E. destruct sheets as [|[name s] rest]; [done|].
      right. split; [done|by left].
    - destruct (dict_mem sheets "Parametric list") eqn:E1;
        destruct (dict_mem sheets "Project list") eqn:E2; simpl; try by left.
      apply dict_mem_get in E1, E2. destruct E1 as [q ->], E2 as [p ->].
      right. split; [done|by right]. }
  split.
  - destruct Hsel as [Hraise|[Hok Hcond]].
    + rewrite Hraise. simpl. split; [intros _|done].
      revert Hraise. unfold select_sheets.
      destruct (Nat.eqb (length sheets) 1) eqn:E.
      * apply Nat.eqb_eq in E. by destruct sheets as [|[name s] rest].
      * apply Nat.eqb_neq in E. intros Hraise. split; [done|].
        destruct (dict_mem sheets "Parametric list") eqn:E1; [|by left].
        destruct (dict_mem sheets "Project list") eqn:E2; [|by right].
        apply dict_mem_get in E1, E2. destruct E1 as [q Hq], E2 as [p Hp].
        simpl in Hraise. by rewrite Hq, Hp in Hraise.
    + rewrite Hok. split; [done|]. intros [Hlen Hmem].
      destruct Hcond as [?|[H1 H2]]; [done|]. destruct Hmem; congruence.
  - intros Hfail. destruct Hsel as [Hraise|[Hok _]]; [|congruence].
    unfold read_data. by rewrite Hload, Hraise.
Qed.

(** X30: a workbook with exactly one sheet is read as the project list
    whatever the sheet is called, 'Parametric list' included: the sheet is
    joined against the parametric values of [pd.DataFrame()], an empty
    frame. *)
Theorem single_sheet_is_the_project_list name sheet h h1 :
  read_all_sheets_from_xlsx rd h = (Ok [(name, sheet)], h1) ->
  read_data rd h
  = match create_parametric_value_list rd (empty_DataFrame rd) h1 with
    | (Raise e, h2) => (Raise e, h2)
    | (Ok parametric_value_list, h2) =>
        outer_join_projects_to_parametric_values rd sheet parametric_value_list h2
    end.
Proof. intros Hload. unfold read_data. by rewrite Hload. Qed.

End Sheets.

Lemma sheet_selection_fails_iff_witness :
  (is_Ok (select_sheets
            (Sample.reader_of [("Project list", PObj 1%N); ("Notes", PObj 2%N)])
            [("Project list", PObj 1%N); ("Notes", PObj 2%N)]) = false
   <-> length [("Project list", PObj 1%N); ("Notes", PObj 2%N)] <> 1%nat
       /\ (dict_mem [("Project list", PObj 1%N); ("Notes", PObj 2%N)]
             "Parametric list" = false
           \/ dict_mem [("Project list", PObj 1%N); ("Notes", PObj 2%N)]
                "Project list" = false))
  /\ (is_Ok (select_sheets
               (Sample.reader_of [("Project list", PObj 1%N); ("Notes", PObj 2%N)])
               [("Project list", PObj 1%N); ("Notes", PObj 2%N)]) = false ->
      read_data (Sample.reader_of [("Project list", PObj 1%N); ("Notes", PObj 2%N)]) tt
      = (Raise (KeyError sheet_error_message), tt)).
Proof.
  apply (sheet_selection_fails_iff
           (Sample.reader_of [("Project list", PObj 1%N); ("Notes", PObj 2%N)])
           [("Project list", PObj 1%N); ("Notes", PObj 2%N)] tt tt).
  reflexivity.
Defined.

Lemma single_sheet_is_the_project_list_witness :
  read_data (Sample.reader_of [("Parametric list", PObj 1%N)]) tt
  = match create_parametric_value_list
            (Sample.reader_of [("Parametric list", PObj 1%N)])
            (empty_DataFrame (Sample.reader_of [("Parametric list", PObj 1%N)])) tt with
    | (Raise e, h2) => (Raise e, h2)
    | (Ok parametric_value_list, h2) =>
        outer_join_projects_to_parametric_values
          (Sample.reader_of [("Parametric list", PObj 1%N)]) (PObj 1%N)
          parametric_value_list h2
    end.
Proof.
  apply (single_sheet_is_the_project_list
           (Sample.reader_of [("Parametric list", PObj 1%N)])
           "Parametric list" (PObj 1%N) tt tt).
  reflexivity.
Defined.

End ReadDataSpec.
